(** * Early platform bring-up of the Tegra Trusty port

    A shallow embedding of [platform/tegra/common/platform.c]: the static
    memory map table, the RAM arena descriptor and its resolver
    ([platform_init_mmu_mappings]), the secure register locator
    ([tegra_get_reg_base]), the device register mapper ([tegra_map_regs])
    and the two init hooks run around virtual-memory initialisation.

    The C file mutates two globals and talks to the kernel through calls
    whose results it cannot predict (secure monitor, virtual memory manager,
    physical memory manager).  The embedding therefore threads a [machine]
    holding the globals and a log of every call made, and reads the
    collaborators' answers from an environment that may depend on the whole
    history. *)

From Stdlib Require Import ZArith Lia.
From stdpp Require Import base numbers list strings sorting.

Local Open Scope string_scope.
Local Open Scope list_scope.
Local Open Scope Z_scope.

(** ** Build configuration

    Every constant below comes from a header that is not part of this file
    ([platform/memmap.h], [platform/gic.h], [kernel/vm.h], [lk/init.h],
    [debug.h], [smc.h], the build's [rules.mk]); the development is
    parametric in their values. *)

(** [TIMER_ARM_GENERIC_SELECTED] names one of the three timers for which the
    file defines an interrupt line. *)
Inductive timer_kind : Type := CNTV | CNTPS | CNTP.

Record build_config : Type := {
  ARCH_ARM64 : bool;
  MEMBASE : Z;
  MEMSIZE : Z;
  KERNEL_BASE : Z;
  KERNEL_LOAD_OFFSET : Z;
  TEGRA_UARTA_BASE : Z;
  TEGRA_UARTA_SIZE : Z;
  DEFAULT_DEBUG_PORT : Z;
  MMU_INITIAL_MAPPING_FLAG_DYNAMIC : Z;
  MMU_INITIAL_MAPPING_FLAG_DEVICE : Z;
  PMM_ARENA_FLAG_KMAP : Z;
  GICC_SIZE : Z;
  GICD_SIZE : Z;
  GICC_BASE_VIRT : Z;
  GICD_BASE_VIRT : Z;
  VMM_FLAG_VALLOC_SPECIFIC : Z;
  ARCH_MMU_FLAG_UNCACHED_DEVICE : Z;
  SMC_FC_GET_REG_BASE : Z;
  SMC_FC64_GET_REG_BASE : Z;
  SMC_GET_GIC_BASE_GICC : Z;
  SMC_GET_GIC_BASE_GICD : Z;
  PAGE_SIZE : Z;
  PAGE_SIZE_SHIFT : Z;
  CRITICAL : Z;
  INFO : Z;
  TIMER_ARM_GENERIC_SELECTED : timer_kind;
  LK_INIT_LEVEL_VM : Z
}.

(** Unsigned [w]-bit wrap-around. *)
Definition wrap (w : Z) (x : Z) : Z := x mod 2 ^ w.

(** Width of [paddr_t], [vaddr_t] and [size_t] on the target. *)
Definition word_bits (cfg : build_config) : Z :=
  if ARCH_ARM64 cfg then 64 else 32.

(** [ARM_GENERIC_TIMER_INT_CNTV], [.._CNTPS], [.._CNTP] and the token-pasting
    macro that selects among them. *)
Definition ARM_GENERIC_TIMER_INT_SELECTED (timer : timer_kind) : Z :=
  match timer with
  | CNTV => 27
  | CNTPS => 29
  | CNTP => 30
  end.

Definition ARM_GENERIC_TIMER_INT (cfg : build_config) : Z :=
  ARM_GENERIC_TIMER_INT_SELECTED (TIMER_ARM_GENERIC_SELECTED cfg).

(** [ROUNDDOWN(a, b)] is [(a) & ~((b)-1)], here on integers of unbounded
    width.  The C expression is evaluated in the integer types of its two
    operands, which the absent headers fix; for [0 <= a < 2^32] and [b] a
    power of two below [2^31] every such typing gives this value.  Callers
    narrow the result to the type they store it in. *)
Definition ROUNDDOWN (a b : Z) : Z := Z.land a (Z.lnot (b - 1)).

(** ** Data *)

(** [struct mmu_initial_mapping].  [name] is a [const char *]: [None] is the
    null pointer, [Some s] points to the characters [s] followed by the
    terminator. *)
Record mmu_initial_mapping : Type := {
  phys : Z;
  virt : Z;
  size : Z;
  flags : Z;
  name : option string
}.

(** The fields of [pmm_arena_t] this file initialises or writes.  The name of
    the one arena here is a string literal, never null. *)
Record pmm_arena_t : Type := {
  arena_name : string;
  arena_base : Z;
  arena_size : Z;
  arena_flags : Z
}.

(** The null entry [{0, 0, 0, 0, 0}] that terminates the table. *)
Definition null_entry : mmu_initial_mapping :=
  {| phys := 0; virt := 0; size := 0; flags := 0; name := None |}.

(** The initialiser of [mmu_initial_mappings]. *)
Definition mmu_initial_mappings_init (cfg : build_config)
  : list mmu_initial_mapping :=
  [ {| phys := wrap (word_bits cfg) (MEMBASE cfg + KERNEL_LOAD_OFFSET cfg);
       virt := wrap (word_bits cfg) (KERNEL_BASE cfg + KERNEL_LOAD_OFFSET cfg);
       size := MEMSIZE cfg;
       flags := MMU_INITIAL_MAPPING_FLAG_DYNAMIC cfg;
       name := Some "ram" |};
    {| phys := TEGRA_UARTA_BASE cfg;
       virt := wrap (word_bits cfg)
                 (KERNEL_BASE cfg + KERNEL_LOAD_OFFSET cfg
                  + TEGRA_UARTA_BASE cfg);
       size := TEGRA_UARTA_SIZE cfg;
       flags := MMU_INITIAL_MAPPING_FLAG_DEVICE cfg;
       name := Some "uart" |};
    null_entry ].

(** The initialiser of [ram_arena]. *)
Definition ram_arena_init (cfg : build_config) : pmm_arena_t :=
  {| arena_name := "ram";
     arena_base := wrap (word_bits cfg) (MEMBASE cfg + KERNEL_LOAD_OFFSET cfg);
     arena_size := MEMSIZE cfg;
     arena_flags := PMM_ARENA_FLAG_KMAP cfg |}.

(** ** Calls and their log *)

(** The arguments of one [vmm_alloc_physical] call on the kernel address
    space.  [req_vaddr] is the value stored in [*ptr] when the call is made;
    [None] stands for an uninitialised [void *]. *)
Record vmm_request : Type := {
  req_name : string;
  req_size : Z;
  req_vaddr : option Z;
  req_align_log2 : Z;
  req_paddr : Z;
  req_vmm_flags : Z;
  req_arch_mmu_flags : Z
}.

(** One variadic argument of [dprintf]. *)
Inductive fmt_arg : Type :=
| ArgStr (s : string)
| ArgInt (d : Z)
| ArgULong (x : Z).

(** What a run does, in program order.  [EvStrcmp i] and [EvArenaWrite i]
    tell which table entry a name comparison read and which entry the arena
    was overwritten from; the other events are calls out of the file, with
    the value they returned where there is one. *)
Inductive event : Type :=
| EvInitDebugPort (id : Z)
| EvStrcmp (i : nat)
| EvArenaWrite (i : nat)
| EvPmmAddArena (a : pmm_arena_t) (ret : Z)
| EvSmc (fid r1 r2 r3 : Z) (ret : Z)
| EvVmmAllocPhysical (req : vmm_request) (ret : Z)
| EvDprintf (level : Z) (fmt : string) (args : list fmt_arg)
| EvGicInit
| EvTimerInit (irq : Z) (tflags : Z).

(** The globals of the file and the log. *)
Record machine : Type := {
  mmu_initial_mappings : list mmu_initial_mapping;
  ram_arena : pmm_arena_t;
  debug_uart_id : Z;
  log : list event
}.

(** The machine as the linker leaves it. *)
Definition boot_machine (cfg : build_config) : machine :=
  {| mmu_initial_mappings := mmu_initial_mappings_init cfg;
     ram_arena := ram_arena_init cfg;
     debug_uart_id := wrap 32 (DEFAULT_DEBUG_PORT cfg);
     log := [] |}.

(** The collaborators.  Each answer may depend on everything that happened
    before the call; the file never looks inside them. *)
Record collaborators : Type := {
  tegra_smc : list event -> Z -> Z -> Z -> Z -> Z;
  vmm_alloc_physical : list event -> vmm_request -> Z;
  pmm_add_arena : list event -> pmm_arena_t -> Z
}.

(** ** The computation monad

    A run either returns to its caller or stops at a point where C gives the
    program no meaning (here: [strcmp] on a null pointer). *)
Inductive outcome (A : Type) : Type :=
| Returned (a : A) (s : machine)
| Fault (s : machine).
Arguments Returned {A} a s.
Arguments Fault {A} s.

Definition M (A : Type) : Type := machine -> outcome A.

Definition pure {A : Type} (a : A) : M A := fun s => Returned a s.

Definition bind {A B : Type} (m : M A) (k : A -> M B) : M B :=
  fun s =>
    match m s with
    | Returned a s' => k a s'
    | Fault s' => Fault s'
    end.

Declare Scope platform_scope.
Delimit Scope platform_scope with platform.
Notation "x <- m ;; k" := (bind m (fun x => k))
  (at level 100, m at next level, right associativity) : platform_scope.
Notation "m ;; k" := (bind m (fun _ => k))
  (at level 100, right associativity) : platform_scope.
Local Open Scope platform_scope.

Definition fault {A : Type} : M A := fun s => Fault s.

Definition get : M machine := fun s => Returned s s.

Definition emit (e : event) : M unit :=
  fun s =>
    Returned tt
      {| mmu_initial_mappings := mmu_initial_mappings s;
         ram_arena := ram_arena s;
         debug_uart_id := debug_uart_id s;
         log := log s ++ [e] |}.

Definition set_ram_arena (a : pmm_arena_t) : M unit :=
  fun s =>
    Returned tt
      {| mmu_initial_mappings := mmu_initial_mappings s;
         ram_arena := a;
         debug_uart_id := debug_uart_id s;
         log := log s |}.

(** The machine an outcome ends in, and the events a run appended. *)
Definition final {A : Type} (o : outcome A) : machine :=
  match o with
  | Returned _ s => s
  | Fault s => s
  end.

Definition returns {A : Type} (o : outcome A) : bool :=
  match o with
  | Returned _ _ => true
  | Fault _ => false
  end.

Definition appended (s : machine) {A : Type} (o : outcome A) : list event :=
  drop (length (log s)) (log (final o)).

(** ** libc *)

(** [strcmp] from the C library, on the characters before the terminator.
    The standard fixes only the sign of the result. *)
Definition strcmp (cs ct : string) : Z :=
  match String.compare cs ct with
  | Eq => 0
  | Lt => -1
  | Gt => 1
  end.

(** Line feed, for the format strings. *)
Definition LF : string := String (Ascii.ascii_of_nat 10) EmptyString.

(** ** Init hooks *)

(** [struct lk_init_struct], as [LK_INIT_HOOK] fills it: the level, the
    callback (which receives the level) and the name. *)
Record lk_init_struct : Type := {
  level : Z;
  hook : Z -> M unit;
  hook_name : string
}.

(** ** The program *)

Section Platform.

Context (cfg : build_config) (env : collaborators).

(** *** Calls out of the file *)

Definition platform_init_debug_port (id : Z) : M unit :=
  emit (EvInitDebugPort id).

Definition call_pmm_add_arena : M Z :=
  s <- get;;
  let ret := pmm_add_arena env (log s) (ram_arena s) in
  emit (EvPmmAddArena (ram_arena s) ret);;
  pure ret.

Definition call_vmm_alloc_physical (req : vmm_request) : M Z :=
  s <- get;;
  let ret := vmm_alloc_physical env (log s) req in
  emit (EvVmmAllocPhysical req ret);;
  pure ret.

Definition call_tegra_smc (fid r1 r2 r3 : Z) : M Z :=
  s <- get;;
  let ret := tegra_smc env (log s) fid r1 r2 r3 in
  emit (EvSmc fid r1 r2 r3 ret);;
  pure ret.

Definition dprintf (lvl : Z) (fmt : string) (args : list fmt_arg) : M unit :=
  emit (EvDprintf lvl fmt args).

Definition arm_gic_init : M unit := emit EvGicInit.

Definition arm_generic_timer_init (irq tflags : Z) : M unit :=
  emit (EvTimerInit irq tflags).

(** [strcmp(m->name, ram_arena.name)] for the entry at index [i]: the call
    reads through both pointers, so a null [m->name] has no meaning. *)
Definition strcmp_name (i : nat) (m_name : option string) : M Z :=
  emit (EvStrcmp i);;
  match m_name with
  | None => fault
  | Some cs => s <- get;; pure (strcmp cs (arena_name (ram_arena s)))
  end.

(** *** [platform_early_init] *)

Definition platform_early_init : M unit :=
  s <- get;;
  platform_init_debug_port (debug_uart_id s).

(** *** [platform_init_mmu_mappings] *)

(** The three assignments under the comment "update ram_arena". *)
Definition update_ram_arena (i : nat) (m : mmu_initial_mapping) : M unit :=
  s <- get;;
  set_ram_arena
    {| arena_name := arena_name (ram_arena s);
       arena_base := phys m;
       arena_size := size m;
       arena_flags := PMM_ARENA_FLAG_KMAP cfg |};;
  emit (EvArenaWrite i).

(** The [for] loop, from index [i] with [ms] the entries from [m] to the
    end of the array ([countof] entries in all, the null entry included).
    [continue] and falling off the body go to the next entry, [break] leaves
    the loop.  The counter is kept as a natural number: the array is a
    static object of a few entries, far below the range of [uint]. *)
Fixpoint mappings_loop (i : nat) (ms : list mmu_initial_mapping) : M unit :=
  match ms with
  | [] => pure tt
  | m :: ms' =>
      if Z.land (flags m) (MMU_INITIAL_MAPPING_FLAG_DYNAMIC cfg) =? 0
      then mappings_loop (S i) ms'
      else
        r <- strcmp_name i (name m);;
        if r =? 0
        then update_ram_arena i m
        else mappings_loop (S i) ms'
  end.

Definition platform_init_mmu_mappings : M unit :=
  s <- get;;
  mappings_loop 0 (mmu_initial_mappings s);;
  call_pmm_add_arena;;
  pure tt.

(** *** [tegra_map_regs] *)

Definition tegra_map_regs (name : string) (vaddr paddr size : Z) : M unit :=
  ret <- call_vmm_alloc_physical
           {| req_name := "gic";
              req_size := GICC_SIZE cfg;
              req_vaddr := Some vaddr;
              req_align_log2 := 0;
              req_paddr := paddr;
              req_vmm_flags := VMM_FLAG_VALLOC_SPECIFIC cfg;
              req_arch_mmu_flags := ARCH_MMU_FLAG_UNCACHED_DEVICE cfg |};;
  if ret =? 0
  then pure tt
  else dprintf (CRITICAL cfg) ("%s: failed %d" +:+ LF)
         [ArgStr "tegra_map_regs"; ArgInt ret].

(** *** [tegra_get_reg_base] *)

Definition tegra_get_reg_base (reg : Z) : M Z :=
  if ARCH_ARM64 cfg
  then call_tegra_smc (SMC_FC64_GET_REG_BASE cfg) reg 0 0
  else call_tegra_smc (SMC_FC_GET_REG_BASE cfg) reg 0 0.

(** *** The two hooks *)

Definition platform_during_vm_init (lvl : Z) : M unit :=
  let paddr := wrap (word_bits cfg)
                 (ROUNDDOWN (TEGRA_UARTA_BASE cfg) (PAGE_SIZE cfg)) in
  err <- call_vmm_alloc_physical
           {| req_name := "uart";
              req_size := PAGE_SIZE cfg;
              req_vaddr := None;
              req_align_log2 := PAGE_SIZE_SHIFT cfg;
              req_paddr := paddr;
              req_vmm_flags := 0;
              req_arch_mmu_flags := ARCH_MMU_FLAG_UNCACHED_DEVICE cfg |};;
  if err =? 0
  then pure tt
  else dprintf (CRITICAL cfg) ("%s: failed to map UART port %d" +:+ LF)
         [ArgStr "platform_during_vm_init"; ArgInt err].

Definition platform_after_vm_init (lvl : Z) : M unit :=
  gicc <- tegra_get_reg_base (SMC_GET_GIC_BASE_GICC cfg);;
  gicd <- tegra_get_reg_base (SMC_GET_GIC_BASE_GICD cfg);;
  dprintf (INFO cfg) ("gicc 0x%lx, gicd 0x%lx" +:+ LF)
    [ArgULong gicc; ArgULong gicd];;
  tegra_map_regs "gicc" (GICC_BASE_VIRT cfg) gicc (GICC_SIZE cfg);;
  tegra_map_regs "gicd" (GICD_BASE_VIRT cfg) gicd (GICD_SIZE cfg);;
  arm_gic_init;;
  arm_generic_timer_init (ARM_GENERIC_TIMER_INT cfg) 0.

(** The two [LK_INIT_HOOK] lines.  The level field is a [uint]. *)
Definition platform_during_vm : lk_init_struct :=
  {| level := wrap 32 (LK_INIT_LEVEL_VM cfg + 1);
     hook := platform_during_vm_init;
     hook_name := "platform_during_vm" |}.

Definition platform_after_vm : lk_init_struct :=
  {| level := wrap 32 (LK_INIT_LEVEL_VM cfg + 2);
     hook := platform_after_vm_init;
     hook_name := "platform_after_vm" |}.

Definition platform_hooks : list lk_init_struct :=
  [platform_during_vm; platform_after_vm].

End Platform.

(** ** Running the hooks *)

(** Modelled from the spec: running the registered callbacks ([lk/init.h] and
    the walk over the hooks are not among the sources).  One pass over a
    schedule calls every callback once, in list order, with the level it was
    registered at. *)
Fixpoint run_hooks (hs : list lk_init_struct) : M unit :=
  match hs with
  | [] => pure tt
  | h :: hs' => hook h (level h);; run_hooks hs'
  end.

(** Modelled from the spec: the boot-time initialization hook registry
    ([lk/init.h] and the walk over the registered hooks are not among the
    sources).  Of a boot that registered the hooks [registered] and ran
    them in the order [run] it guarantees that every registered callback
    runs exactly once and that levels never decrease along the run. *)
Definition boot_schedule (registered run : list lk_init_struct) : Prop :=
  run ≡ₚ registered ∧ Sorted (fun a b => level a <= level b) run.

(** ** Vocabulary of the statements *)

(** The machine [s] with the events [evs] added to its log. *)
Definition logged (s : machine) (evs : list event) : machine :=
  {| mmu_initial_mappings := mmu_initial_mappings s;
     ram_arena := ram_arena s;
     debug_uart_id := debug_uart_id s;
     log := log s ++ evs |}.

(** The entry has the dynamic flag set, as the loop tests it. *)
Definition is_dynamic (cfg : build_config) (m : mmu_initial_mapping) : Prop :=
  Z.land (flags m) (MMU_INITIAL_MAPPING_FLAG_DYNAMIC cfg) ≠ 0.

(** The entry is dynamic and carries the arena's name. *)
Definition names_arena (cfg : build_config) (a : pmm_arena_t)
    (m : mmu_initial_mapping) : Prop :=
  is_dynamic cfg m ∧ name m = Some (arena_name a).

(** Every dynamic entry of the table has a name to compare: the table is one
    [strcmp] can be run on. *)
Definition names_readable (cfg : build_config)
    (tbl : list mmu_initial_mapping) : Prop :=
  ∀ m, m ∈ tbl → is_dynamic cfg m → name m ≠ None.

#[global] Instance is_dynamic_dec cfg m : Decision (is_dynamic cfg m).
Proof. unfold is_dynamic. apply _. Defined.

#[global] Instance names_arena_dec cfg a m : Decision (names_arena cfg a m).
Proof. unfold names_arena. apply _. Defined.

(** Indices, counted from [i], of the dynamic entries of [ms]. *)
Fixpoint dynamic_indices (cfg : build_config) (i : nat)
    (ms : list mmu_initial_mapping) : list nat :=
  match ms with
  | [] => []
  | m :: ms' =>
      if decide (is_dynamic cfg m)
      then i :: dynamic_indices cfg (S i) ms'
      else dynamic_indices cfg (S i) ms'
  end.

Definition is_pmm_add_arena (e : event) : bool :=
  match e with EvPmmAddArena _ _ => true | _ => false end.

Definition is_arena_write (e : event) : bool :=
  match e with EvArenaWrite _ => true | _ => false end.

(** How many events of a log satisfy [p]. *)
Definition count_events (p : event -> bool) (evs : list event) : nat :=
  length (List.filter p evs).

(** The status of the first [vmm_alloc_physical] call in a log, if any. *)
Fixpoint first_vmm_status (evs : list event) : option Z :=
  match evs with
  | [] => None
  | EvVmmAllocPhysical _ ret :: _ => Some ret
  | _ :: evs' => first_vmm_status evs'
  end.

(** The claim that a rejected registration stops the resolver: whenever the
    log of the run shows [pmm_add_arena] returning an error, the run did not
    return. *)
Definition registration_failure_is_fatal (cfg : build_config)
    (env : collaborators) (s : machine) : Prop :=
  ∀ a ret,
    EvPmmAddArena a ret ∈ appended s (platform_init_mmu_mappings cfg env s) →
    ret ≠ 0 →
    returns (platform_init_mmu_mappings cfg env s) = false.

(** The claim that [tegra_map_regs] asks for what it was given: the request
    carries the caller's name and size. *)
Definition maps_what_was_asked (cfg : build_config) (env : collaborators)
    (nm : string) (vaddr paddr sz : Z) (s : machine) : Prop :=
  ∃ req ret rest,
    appended s (tegra_map_regs cfg env nm vaddr paddr sz s)
      = EvVmmAllocPhysical req ret :: rest
    ∧ req_name req = nm ∧ req_size req = sz
    ∧ req_vaddr req = Some vaddr ∧ req_paddr req = paddr
    ∧ req_arch_mmu_flags req = ARCH_MMU_FLAG_UNCACHED_DEVICE cfg.

(** The function id [tegra_get_reg_base] is compiled with. *)
Definition get_reg_base_fid (cfg : build_config) : Z :=
  if ARCH_ARM64 cfg then SMC_FC64_GET_REG_BASE cfg
  else SMC_FC_GET_REG_BASE cfg.

(** The request [tegra_map_regs] builds for a target address and a physical
    address, and what a call that got status [ret] adds to the log. *)
Definition gic_request (cfg : build_config) (vaddr paddr : Z) : vmm_request :=
  {| req_name := "gic";
     req_size := GICC_SIZE cfg;
     req_vaddr := Some vaddr;
     req_align_log2 := 0;
     req_paddr := paddr;
     req_vmm_flags := VMM_FLAG_VALLOC_SPECIFIC cfg;
     req_arch_mmu_flags := ARCH_MMU_FLAG_UNCACHED_DEVICE cfg |}.

Definition map_regs_diagnostic (cfg : build_config) (ret : Z) : event :=
  EvDprintf (CRITICAL cfg) ("%s: failed %d" +:+ LF)
    [ArgStr "tegra_map_regs"; ArgInt ret].

Definition map_regs_events (cfg : build_config) (vaddr paddr ret : Z)
  : list event :=
  EvVmmAllocPhysical (gic_request cfg vaddr paddr) ret
  :: (if ret =? 0 then [] else [map_regs_diagnostic cfg ret]).

(** ** A build and two environments

    The values are those of the usual LK headers and of a Tegra board; no
    general statement below depends on them. *)
Definition sample_config : build_config :=
  {| ARCH_ARM64 := true;
     MEMBASE := 0x80000000;
     MEMSIZE := 0x40000000;
     KERNEL_BASE := 0xffffffffe0000000;
     KERNEL_LOAD_OFFSET := 0;
     TEGRA_UARTA_BASE := 0x70006000;
     TEGRA_UARTA_SIZE := 0x40;
     DEFAULT_DEBUG_PORT := 1;
     MMU_INITIAL_MAPPING_FLAG_DYNAMIC := 0x8;
     MMU_INITIAL_MAPPING_FLAG_DEVICE := 0x4;
     PMM_ARENA_FLAG_KMAP := 0x1;
     GICC_SIZE := 0x2000;
     GICD_SIZE := 0x1000;
     GICC_BASE_VIRT := 0xffffffffe0042000;
     GICD_BASE_VIRT := 0xffffffffe0041000;
     VMM_FLAG_VALLOC_SPECIFIC := 0x1;
     ARCH_MMU_FLAG_UNCACHED_DEVICE := 0x2;
     SMC_FC_GET_REG_BASE := 0x82000001;
     SMC_FC64_GET_REG_BASE := 0xc2000001;
     SMC_GET_GIC_BASE_GICC := 0;
     SMC_GET_GIC_BASE_GICD := 1;
     PAGE_SIZE := 4096;
     PAGE_SIZE_SHIFT := 12;
     CRITICAL := 0;
     INFO := 1;
     TIMER_ARM_GENERIC_SELECTED := CNTPS;
     LK_INIT_LEVEL_VM := 0x50000 |}.

(** Collaborators that always succeed; the monitor answers with the GIC
    addresses of the scenario. *)
Definition obliging_env : collaborators :=
  {| tegra_smc := fun _ _ reg _ _ =>
       if reg =? 0 then 0x50041000 else 0x50051000;
     vmm_alloc_physical := fun _ _ => 0;
     pmm_add_arena := fun _ _ => 0 |}.

(** Collaborators that refuse: the physical allocator rejects an arena of
    size zero, the virtual memory manager rejects every request. *)
Definition refusing_env : collaborators :=
  {| tegra_smc := fun _ _ reg _ _ =>
       if reg =? 0 then 0x50041000 else 0x50051000;
     vmm_alloc_physical := fun _ _ => -5;
     pmm_add_arena := fun _ a => if arena_size a =? 0 then -8 else 0 |}.

(** The table and descriptor of the resolution scenario: a dynamic "ram"
    entry, the UART device entry, the null entry; the descriptor still at a
    default that differs from the table. *)
Definition scenario_machine : machine :=
  {| mmu_initial_mappings :=
       [ {| phys := 0x80000000; virt := 0xffffffffe0000000;
            size := 0x40000000; flags := 0x8; name := Some "ram" |};
         {| phys := 0x70006000; virt := 0xffffffffe0006000;
            size := 0x40; flags := 0x4; name := Some "uart" |};
         null_entry ];
     ram_arena := {| arena_name := "ram"; arena_base := 0;
                     arena_size := 0x08000000; arena_flags := 0x1 |};
     debug_uart_id := 1;
     log := [] |}.

(** A table without a dynamic entry: the UART device mapping and the null
    entry. *)
Definition static_machine : machine :=
  {| mmu_initial_mappings :=
       [ {| phys := 0x70006000; virt := 0xffffffffe0006000;
            size := 0x40; flags := 0x4; name := Some "uart" |};
         null_entry ];
     ram_arena := ram_arena_init sample_config;
     debug_uart_id := 1;
     log := [] |}.

(** A table in which earlier boot code left two dynamic "ram" entries. *)
Definition twin_machine : machine :=
  {| mmu_initial_mappings :=
       [ {| phys := 0x70006000; virt := 0xffffffffe0006000;
            size := 0x40; flags := 0x4; name := Some "uart" |};
         {| phys := 0x80000000; virt := 0xffffffffe0000000;
            size := 0x40000000; flags := 0x8; name := Some "ram" |};
         {| phys := 0xc0000000; virt := 0xffffffffe8000000;
            size := 0x10000000; flags := 0x8; name := Some "ram" |};
         null_entry ];
     ram_arena := ram_arena_init sample_config;
     debug_uart_id := 1;
     log := [] |}.

(** A table whose dynamic "ram" entry was left with size zero. *)
Definition starved_machine : machine :=
  {| mmu_initial_mappings :=
       [ {| phys := 0x80000000; virt := 0xffffffffe0000000;
            size := 0; flags := 0x8; name := Some "ram" |};
         {| phys := 0x70006000; virt := 0xffffffffe0006000;
            size := 0x40; flags := 0x4; name := Some "uart" |};
         null_entry ];
     ram_arena := ram_arena_init sample_config;
     debug_uart_id := 1;
     log := [] |}.

(** A monitor whose answer moves with every call made so far. *)
Definition drifting_env : collaborators :=
  {| tegra_smc := fun l _ _ _ _ => 0x50041000 + Z.of_nat (length l);
     vmm_alloc_physical := fun _ _ => 0;
     pmm_add_arena := fun _ _ => 0 |}.

(** ** Vocabulary of the further properties *)

(** The globals of [s'] are those of [s]; only the log may differ. *)
Definition same_globals (s s' : machine) : Prop :=
  mmu_initial_mappings s' = mmu_initial_mappings s
  ∧ ram_arena s' = ram_arena s
  ∧ debug_uart_id s' = debug_uart_id s.

(** An entry with its location and size overwritten, as the comment on the
    first entry of the table announces the reset code may do. *)
Definition set_region (p sz : Z) (m : mmu_initial_mapping)
  : mmu_initial_mapping :=
  {| phys := p; virt := virt m; size := sz; flags := flags m;
     name := name m |}.

(** The machine as linked, after the reset code stored the RAM it found in
    the first entry of the table. *)
Definition boot_machine_with_ram (cfg : build_config) (p sz : Z) : machine :=
  {| mmu_initial_mappings :=
       alter (set_region p sz) 0%nat (mmu_initial_mappings_init cfg);
     ram_arena := ram_arena_init cfg;
     debug_uart_id := wrap 32 (DEFAULT_DEBUG_PORT cfg);
     log := [] |}.

(** The request Stage A builds. *)
Definition uart_request (cfg : build_config) : vmm_request :=
  {| req_name := "uart";
     req_size := PAGE_SIZE cfg;
     req_vaddr := None;
     req_align_log2 := PAGE_SIZE_SHIFT cfg;
     req_paddr := wrap (word_bits cfg)
                    (ROUNDDOWN (TEGRA_UARTA_BASE cfg) (PAGE_SIZE cfg));
     req_vmm_flags := 0;
     req_arch_mmu_flags := ARCH_MMU_FLAG_UNCACHED_DEVICE cfg |}.

(** A table that ends in two dynamic entries without a name, behind a
    dynamic "ram" entry. *)
Definition ragged_machine : machine :=
  {| mmu_initial_mappings :=
       [ {| phys := 0x70006000; virt := 0xffffffffe0006000;
            size := 0x40; flags := 0x4; name := Some "uart" |};
         {| phys := 0x80000000; virt := 0xffffffffe0000000;
            size := 0x40000000; flags := 0x8; name := Some "ram" |};
         {| phys := 0; virt := 0; size := 0; flags := 0x8; name := None |};
         {| phys := 0; virt := 0; size := 0; flags := 0xc; name := None |} ];
     ram_arena := ram_arena_init sample_config;
     debug_uart_id := 1;
     log := [] |}.

(** A table whose first dynamic entry has no name; a dynamic "ram" entry
    follows it. *)
Definition nameless_machine : machine :=
  {| mmu_initial_mappings :=
       [ {| phys := 0x70006000; virt := 0xffffffffe0006000;
            size := 0x40; flags := 0x4; name := Some "uart" |};
         {| phys := 0x90000000; virt := 0xffffffffe0000000;
            size := 0x1000; flags := 0x8; name := None |};
         {| phys := 0x80000000; virt := 0xffffffffe0000000;
            size := 0x40000000; flags := 0x8; name := Some "ram" |};
         null_entry ];
     ram_arena := ram_arena_init sample_config;
     debug_uart_id := 1;
     log := [] |}.

(** A table whose dynamic entries carry other names than the arena's. *)
Definition foreign_machine : machine :=
  {| mmu_initial_mappings :=
       [ {| phys := 0xa0000000; virt := 0xffffffffe8000000;
            size := 0x100000; flags := 0x8; name := Some "carveout" |};
         {| phys := 0x70006000; virt := 0xffffffffe0006000;
            size := 0x40; flags := 0x4; name := Some "uart" |};
         {| phys := 0xb0000000; virt := 0xffffffffe9000000;
            size := 0x200000; flags := 0xa; name := Some "ramoops" |};
         null_entry ];
     ram_arena := ram_arena_init sample_config;
     debug_uart_id := 1;
     log := [] |}.

(** A board whose UART sits in the middle of a page. *)
Definition offset_uart_config : build_config :=
  {| ARCH_ARM64 := ARCH_ARM64 sample_config;
     MEMBASE := MEMBASE sample_config;
     MEMSIZE := MEMSIZE sample_config;
     KERNEL_BASE := KERNEL_BASE sample_config;
     KERNEL_LOAD_OFFSET := KERNEL_LOAD_OFFSET sample_config;
     TEGRA_UARTA_BASE := 0x70006300;
     TEGRA_UARTA_SIZE := 0x40;
     DEFAULT_DEBUG_PORT := DEFAULT_DEBUG_PORT sample_config;
     MMU_INITIAL_MAPPING_FLAG_DYNAMIC := 0x8;
     MMU_INITIAL_MAPPING_FLAG_DEVICE := 0x4;
     PMM_ARENA_FLAG_KMAP := 0x1;
     GICC_SIZE := GICC_SIZE sample_config;
     GICD_SIZE := GICD_SIZE sample_config;
     GICC_BASE_VIRT := GICC_BASE_VIRT sample_config;
     GICD_BASE_VIRT := GICD_BASE_VIRT sample_config;
     VMM_FLAG_VALLOC_SPECIFIC := 0x1;
     ARCH_MMU_FLAG_UNCACHED_DEVICE := 0x2;
     SMC_FC_GET_REG_BASE := SMC_FC_GET_REG_BASE sample_config;
     SMC_FC64_GET_REG_BASE := SMC_FC64_GET_REG_BASE sample_config;
     SMC_GET_GIC_BASE_GICC := 0;
     SMC_GET_GIC_BASE_GICD := 1;
     PAGE_SIZE := 4096;
     PAGE_SIZE_SHIFT := 12;
     CRITICAL := 0;
     INFO := 1;
     TIMER_ARM_GENERIC_SELECTED := CNTPS;
     LK_INIT_LEVEL_VM := LK_INIT_LEVEL_VM sample_config |}.

(** * Properties *)

(** ** The monad and the log *)

Lemma logged_nil (s : machine) : logged s [] = s.
Proof. destruct s; unfold logged; cbn. by rewrite app_nil_r. Qed.

Lemma logged_logged (s : machine) (l1 l2 : list event) :
  logged (logged s l1) l2 = logged s (l1 ++ l2).
Proof. unfold logged; cbn. by rewrite app_assoc. Qed.

Lemma emit_logged (e : event) (s : machine) :
  emit e s = Returned tt (logged s [e]).
Proof. reflexivity. Qed.

Lemma appended_logged {A : Type} (s : machine) (a : A) (evs : list event) :
  appended s (Returned a (logged s evs)) = evs.
Proof. unfold appended; cbn. apply drop_app_length. Qed.

Lemma appended_app {A : Type} (s : machine) (o : outcome A) (evs : list event) :
  log (final o) = log s ++ evs → appended s o = evs.
Proof. unfold appended. intros ->. apply drop_app_length. Qed.

Lemma bind_returned {A B : Type} (m : M A) (k : A -> M B) s a s' :
  m s = Returned a s' → bind m k s = k a s'.
Proof. unfold bind. by intros ->. Qed.

Lemma bind_fault {A B : Type} (m : M A) (k : A -> M B) s s' :
  m s = Fault s' → bind m k s = Fault s'.
Proof. unfold bind. by intros ->. Qed.

Lemma bind_assoc {A B C : Type} (m : M A) (k : A -> M B) (k' : B -> M C) s :
  bind (bind m k) k' s = bind m (fun a => bind (k a) k') s.
Proof. unfold bind. by destruct (m s). Qed.

Lemma strcmp_eq_0 (cs ct : string) : strcmp cs ct = 0 ↔ cs = ct.
Proof.
  unfold strcmp. split.
  - destruct (String.compare cs ct) eqn:E; try discriminate.
    intros _. by apply String.compare_eq_iff.
  - intros ->. pose proof (String.compare_antisym ct ct) as H.
    by destruct (String.compare ct ct).
Qed.

Lemma count_events_app p l1 l2 :
  count_events p (l1 ++ l2) = (count_events p l1 + count_events p l2)%nat.
Proof. unfold count_events. by rewrite List.filter_app, length_app. Qed.

Lemma count_events_strcmp p (js : list nat) :
  p = is_pmm_add_arena ∨ p = is_arena_write →
  count_events p (EvStrcmp <$> js) = 0%nat.
Proof.
  intros Hp. induction js as [|j js IH]; [done|].
  unfold count_events in *. cbn.
  by destruct Hp as [-> | ->]; cbn.
Qed.

(** Case analysis on membership of an index event in an explicit list. *)
Ltac split_events :=
  repeat match goal with
    | H : _ ∨ _ |- _ => destruct H
    | H : False |- _ => destruct H
    | H : EvStrcmp _ = EvStrcmp _ |- _ => injection H as ->
    | H : EvArenaWrite _ = EvArenaWrite _ |- _ => injection H as ->
    | H : @eq event _ _ |- _ => discriminate H
    end.

(** ** The resolver's loop *)

Section Resolver.

Context (cfg : build_config) (env : collaborators).

Lemma null_entry_not_dynamic : ¬ is_dynamic cfg null_entry.
Proof. intros H. apply H. apply Z.land_0_l. Qed.

Lemma strcmp_name_some i cs s :
  strcmp_name i (Some cs) s
    = Returned (strcmp cs (arena_name (ram_arena s))) (logged s [EvStrcmp i]).
Proof. reflexivity. Qed.

Lemma strcmp_name_null i s :
  strcmp_name i None s = Fault (logged s [EvStrcmp i]).
Proof. reflexivity. Qed.

Lemma update_ram_arena_eq i m s :
  update_ram_arena cfg i m s
    = Returned tt
        {| mmu_initial_mappings := mmu_initial_mappings s;
           ram_arena := {| arena_name := arena_name (ram_arena s);
                           arena_base := phys m;
                           arena_size := size m;
                           arena_flags := PMM_ARENA_FLAG_KMAP cfg |};
           debug_uart_id := debug_uart_id s;
           log := log s ++ [EvArenaWrite i] |}.
Proof. reflexivity. Qed.

Lemma dynamic_indices_bounds ms i j :
  j ∈ dynamic_indices cfg i ms →
  ∃ m, (i ≤ j)%nat ∧ ms !! (j - i)%nat = Some m ∧ is_dynamic cfg m.
Proof.
  revert i. induction ms as [|m ms IH]; intros i; cbn.
  - by intros ?%elem_of_nil.
  - assert (Hrest : j ∈ dynamic_indices cfg (S i) ms →
              ∃ m', (i ≤ j)%nat
                    ∧ (m :: ms) !! (j - i)%nat = Some m'
                    ∧ is_dynamic cfg m').
    { intros Hin. destruct (IH _ Hin) as (m' & Hle & Hm' & Hd).
      exists m'. split; [lia|]. split; [|done].
      replace (j - i)%nat with (S (j - S i)) by lia. done. }
    destruct (decide (is_dynamic cfg m)) as [Hd|Hd]; [|done].
    intros [->|Hin]%elem_of_cons; [|auto].
    exists m. split; [lia|]. by rewrite Nat.sub_diag.
Qed.

(** The loop on a table without a dynamic entry of the arena's name walks
    to the end, comparing the name of each dynamic entry, and writes
    nothing. *)
Lemma mappings_loop_no_match ms i s :
  names_readable cfg ms →
  (∀ m, m ∈ ms → ¬ names_arena cfg (ram_arena s) m) →
  mappings_loop cfg i ms s
    = Returned tt (logged s (EvStrcmp <$> dynamic_indices cfg i ms)).
Proof.
  revert i s. induction ms as [|m ms IH]; intros i s Hrd Hno; cbn.
  - by rewrite logged_nil.
  - assert (Hrd' : names_readable cfg ms).
    { intros m' Hin. apply Hrd. by right. }
    destruct (Z.eqb_spec (Z.land (flags m)
                (MMU_INITIAL_MAPPING_FLAG_DYNAMIC cfg)) 0) as [Hz|Hnz].
    + rewrite decide_False by (unfold is_dynamic; tauto).
      apply IH; [done|]. intros m' Hin. apply Hno. by right.
    + rewrite decide_True by done.
      destruct (name m) as [cs|] eqn:Hname.
      2:{ exfalso. by apply (Hrd m); [left| |]. }
      rewrite (bind_returned _ _ _ _ _ (strcmp_name_some i cs s)).
      destruct (Z.eqb_spec (strcmp cs (arena_name (ram_arena s))) 0)
        as [Heq|Hne].
      * apply strcmp_eq_0 in Heq. exfalso.
        apply (Hno m); [by left|]. split; [done|]. by rewrite Hname, Heq.
      * rewrite IH; [|done|].
        -- by rewrite logged_logged.
        -- intros m' Hin. apply (Hno m'). by right.
Qed.

(** The loop on a table whose first dynamic entry of the arena's name is
    [m], at index [k]: it compares the names of the dynamic entries up to
    [k], overwrites the arena from [m] and leaves. *)
Lemma mappings_loop_first_match ms i s k m :
  names_readable cfg ms →
  list_find (names_arena cfg (ram_arena s)) ms = Some (k, m) →
  mappings_loop cfg i ms s
    = Returned tt
        {| mmu_initial_mappings := mmu_initial_mappings s;
           ram_arena := {| arena_name := arena_name (ram_arena s);
                           arena_base := phys m;
                           arena_size := size m;
                           arena_flags := PMM_ARENA_FLAG_KMAP cfg |};
           debug_uart_id := debug_uart_id s;
           log := log s
                  ++ (EvStrcmp <$> dynamic_indices cfg i (take (S k) ms))
                  ++ [EvArenaWrite (i + k)] |}.
Proof.
  revert i s k. induction ms as [|m0 ms IH]; intros i s k Hrd Hfind.
  { discriminate. }
  assert (Hrd' : names_readable cfg ms).
  { intros m' Hin. apply Hrd. by right. }
  cbn [list_find] in Hfind. cbn [mappings_loop take dynamic_indices].
  destruct (Z.eqb_spec (Z.land (flags m0)
              (MMU_INITIAL_MAPPING_FLAG_DYNAMIC cfg)) 0) as [Hz|Hnz].
  - rewrite decide_False in Hfind by (intros [Hd _]; by apply Hd).
    rewrite decide_False by (unfold is_dynamic; tauto).
    destruct (list_find _ ms) as [[k' m']|] eqn:Hfind'; [|discriminate].
    cbn in Hfind. injection Hfind as <- <-.
    rewrite (IH (S i) s k' Hrd' Hfind').
    by replace (i + S k')%nat with (S i + k')%nat by lia.
  - rewrite (decide_True (P := is_dynamic cfg m0)) by done.
    destruct (name m0) as [cs|] eqn:Hname.
    2:{ exfalso. by apply (Hrd m0); [left| |]. }
    rewrite (bind_returned _ _ _ _ _ (strcmp_name_some i cs s)).
    destruct (Z.eqb_spec (strcmp cs (arena_name (ram_arena s))) 0)
      as [Heq|Hne].
    + apply strcmp_eq_0 in Heq. subst cs.
      rewrite decide_True in Hfind by (by split).
      injection Hfind as <- <-.
      rewrite update_ram_arena_eq. cbn.
      rewrite take_0, Nat.add_0_r. cbn. by rewrite <- app_assoc.
    + rewrite decide_False in Hfind.
      2:{ intros [_ Hn]. rewrite Hname in Hn. injection Hn as ->.
          by apply Hne, strcmp_eq_0. }
      destruct (list_find _ ms) as [[k' m']|] eqn:Hfind'; [|discriminate].
      cbn in Hfind. injection Hfind as <- <-.
      rewrite (IH (S i) (logged s [EvStrcmp i]) k' Hrd' Hfind'). cbn.
      replace (i + S k')%nat with (S (i + k')) by lia.
      by rewrite <- app_assoc.
Qed.

(** Whatever the table, and whether or not the loop gets to its end, the
    only entries whose name it reads and the only entries it copies from
    are dynamic ones. *)
Lemma mappings_loop_log ms i s :
  ∃ evs,
    log (final (mappings_loop cfg i ms s)) = log s ++ evs
    ∧ ∀ j, EvStrcmp j ∈ evs ∨ EvArenaWrite j ∈ evs →
           j ∈ dynamic_indices cfg i ms.
Proof.
  revert i s. induction ms as [|m0 ms IH]; intros i s;
    cbn [mappings_loop dynamic_indices].
  { exists []. cbn. rewrite app_nil_r. split; [done|].
    intros j [H|H]; by apply elem_of_nil in H. }
  destruct (Z.eqb_spec (Z.land (flags m0)
              (MMU_INITIAL_MAPPING_FLAG_DYNAMIC cfg)) 0) as [Hz|Hnz].
  - rewrite decide_False by (unfold is_dynamic; tauto). apply IH.
  - rewrite (decide_True (P := is_dynamic cfg m0)) by done.
    destruct (name m0) as [cs|].
    + rewrite (bind_returned _ _ _ _ _ (strcmp_name_some i cs s)).
      destruct (strcmp cs (arena_name (ram_arena s)) =? 0).
      * rewrite update_ram_arena_eq. cbn.
        exists [EvStrcmp i; EvArenaWrite i]. rewrite <- app_assoc.
        split; [done|].
        intros j Hj. rewrite !elem_of_cons, !elem_of_nil in Hj.
        rewrite elem_of_cons. split_events; auto.
      * destruct (IH (S i) (logged s [EvStrcmp i])) as (evs & Hlog & Hin).
        exists (EvStrcmp i :: evs). rewrite Hlog. cbn. rewrite <- app_assoc.
        split; [done|].
        intros j Hj. rewrite !elem_of_cons in Hj.
        rewrite elem_of_cons. split_events; auto.
    + rewrite (bind_fault _ _ _ _ (strcmp_name_null i s)). cbn.
      exists [EvStrcmp i]. split; [done|].
      intros j Hj. rewrite !elem_of_cons, !elem_of_nil in Hj.
      rewrite elem_of_cons. split_events; auto.
Qed.

(** *** The whole resolver in terms of its loop *)

Lemma resolver_returned s s1 :
  mappings_loop cfg 0 (mmu_initial_mappings s) s = Returned tt s1 →
  platform_init_mmu_mappings cfg env s
    = Returned tt
        (logged s1 [EvPmmAddArena (ram_arena s1)
                      (pmm_add_arena env (log s1) (ram_arena s1))]).
Proof.
  intros H. unfold platform_init_mmu_mappings.
  unfold bind at 1, get. rewrite (bind_returned _ _ _ _ _ H). reflexivity.
Qed.

Lemma resolver_fault s s1 :
  mappings_loop cfg 0 (mmu_initial_mappings s) s = Fault s1 →
  platform_init_mmu_mappings cfg env s = Fault s1.
Proof.
  intros H. unfold platform_init_mmu_mappings.
  unfold bind at 1, get. by rewrite (bind_fault _ _ _ _ H).
Qed.

(** On a readable table the loop always gets to [pmm_add_arena], having
    called it nowhere before. *)
Lemma mappings_loop_total ms i s :
  names_readable cfg ms →
  ∃ s1 evs,
    mappings_loop cfg i ms s = Returned tt s1
    ∧ log s1 = log s ++ evs
    ∧ count_events is_pmm_add_arena evs = 0%nat.
Proof.
  intros Hrd.
  destruct (list_find (names_arena cfg (ram_arena s)) ms) as [[k m]|] eqn:E.
  - rewrite (mappings_loop_first_match ms i s k m Hrd E).
    eexists _, _. split; [reflexivity|]. split; [reflexivity|].
    rewrite count_events_app, count_events_strcmp by auto. done.
  - apply list_find_None in E. rewrite Forall_forall in E.
    rewrite (mappings_loop_no_match ms i s Hrd E).
    eexists _, _. split; [reflexivity|]. split; [reflexivity|].
    by rewrite count_events_strcmp by auto.
Qed.

End Resolver.

(** ** The dynamic region resolver *)

(** C1. When exactly one entry of the table is dynamic and carries the
    arena's name, [platform_init_mmu_mappings] returns with the arena's base
    equal to that entry's physical base, its size equal to that entry's
    size, and its flags equal to [PMM_ARENA_FLAG_KMAP] and nothing else. *)
Theorem resolver_copies_the_dynamic_entry
    (cfg : build_config) (env : collaborators) (s : machine)
    (i : nat) (m : mmu_initial_mapping) :
  names_readable cfg (mmu_initial_mappings s) →
  mmu_initial_mappings s !! i = Some m →
  names_arena cfg (ram_arena s) m →
  (∀ j m', mmu_initial_mappings s !! j = Some m' →
           names_arena cfg (ram_arena s) m' → j = i) →
  ∃ s',
    platform_init_mmu_mappings cfg env s = Returned tt s'
    ∧ arena_base (ram_arena s') = phys m
    ∧ arena_size (ram_arena s') = size m
    ∧ arena_flags (ram_arena s') = PMM_ARENA_FLAG_KMAP cfg.
Proof.
  intros Hrd Hi Hm Huniq.
  assert (Hfind : list_find (names_arena cfg (ram_arena s))
                    (mmu_initial_mappings s) = Some (i, m)).
  { apply list_find_Some. split; [done|]. split; [done|].
    intros j y Hj Hlt Hy. specialize (Huniq j y Hj Hy). lia. }
  eexists. split.
  - apply resolver_returned.
    apply (mappings_loop_first_match cfg _ 0 s i m Hrd Hfind).
  - done.
Qed.

Lemma scenario_readable :
  names_readable sample_config (mmu_initial_mappings scenario_machine).
Proof.
  intros m Hm Hd. cbn in Hm.
  rewrite !elem_of_cons, elem_of_nil in Hm.
  destruct Hm as [-> | [-> | [-> | []]]]; cbn; [done|done|].
  by destruct (null_entry_not_dynamic sample_config).
Defined.

Lemma resolver_copies_the_dynamic_entry_witness :
  ∃ s',
    platform_init_mmu_mappings sample_config obliging_env scenario_machine
      = Returned tt s'
    ∧ arena_base (ram_arena s') = 0x80000000
    ∧ arena_size (ram_arena s') = 0x40000000
    ∧ arena_flags (ram_arena s') = 0x1.
Proof.
  apply (resolver_copies_the_dynamic_entry sample_config obliging_env
           scenario_machine 0
           {| phys := 0x80000000; virt := 0xffffffffe0000000;
              size := 0x40000000; flags := 0x8; name := Some "ram" |}).
  - apply scenario_readable.
  - reflexivity.
  - split; [by vm_compute|reflexivity].
  - intros [|[|[|j]]] m' Hj [Hd Hn]; cbn in Hj; try done.
    + injection Hj as <-. discriminate Hn.
    + injection Hj as <-. discriminate Hn.
Defined.

(** C4. When no entry of the table is dynamic and carries the arena's name
    (in particular when no entry is dynamic at all),
    [platform_init_mmu_mappings] returns with the arena as it found it:
    base and size, and name and flags too, keep their build-time values. *)
Theorem resolver_keeps_the_defaults
    (cfg : build_config) (env : collaborators) (s : machine) :
  names_readable cfg (mmu_initial_mappings s) →
  (∀ m, m ∈ mmu_initial_mappings s → ¬ names_arena cfg (ram_arena s) m) →
  ∃ s',
    platform_init_mmu_mappings cfg env s = Returned tt s'
    ∧ arena_base (ram_arena s') = arena_base (ram_arena s)
    ∧ arena_size (ram_arena s') = arena_size (ram_arena s)
    ∧ ram_arena s' = ram_arena s.
Proof.
  intros Hrd Hno. eexists. split.
  - apply resolver_returned.
    apply (mappings_loop_no_match cfg _ 0 s Hrd Hno).
  - done.
Qed.

Lemma static_machine_not_dynamic (m : mmu_initial_mapping) :
  m ∈ mmu_initial_mappings static_machine → ¬ is_dynamic sample_config m.
Proof.
  intros Hm Hd. cbn in Hm. rewrite !elem_of_cons, elem_of_nil in Hm.
  destruct Hm as [-> | [-> | []]]; by apply Hd.
Defined.

Lemma resolver_keeps_the_defaults_witness :
  ∃ s',
    platform_init_mmu_mappings sample_config obliging_env static_machine
      = Returned tt s'
    ∧ arena_base (ram_arena s') = 0x80000000
    ∧ arena_size (ram_arena s') = 0x40000000
    ∧ ram_arena s' = ram_arena_init sample_config.
Proof.
  apply (resolver_keeps_the_defaults sample_config obliging_env
           static_machine).
  - intros m Hm Hd. by destruct (static_machine_not_dynamic m Hm).
  - intros m Hm [Hd _]. by destruct (static_machine_not_dynamic m Hm).
Defined.

(** C5. The null entry that ends the table is never taken for a dynamic
    entry and its name is never handed to [strcmp]: at an index holding the
    null entry the run records neither a name comparison nor a copy into
    the arena, on any table, whether or not the run gets to its end. *)
Theorem null_entry_never_read
    (cfg : build_config) (env : collaborators) (s : machine) (i : nat) :
  mmu_initial_mappings s !! i = Some null_entry →
  (EvStrcmp i ∉ appended s (platform_init_mmu_mappings cfg env s))
  ∧ (EvArenaWrite i ∉ appended s (platform_init_mmu_mappings cfg env s)).
Proof.
  intros Hnull.
  destruct (mappings_loop_log cfg (mmu_initial_mappings s) 0 s)
    as (evs & Hlog & Hdyn).
  assert (Hclean : ¬ (EvStrcmp i ∈ evs ∨ EvArenaWrite i ∈ evs)).
  { intros Hin. apply Hdyn, dynamic_indices_bounds in Hin.
    destruct Hin as (m & _ & Hm & Hd).
    rewrite Nat.sub_0_r, Hnull in Hm. injection Hm as <-.
    by apply (null_entry_not_dynamic cfg). }
  destruct (mappings_loop cfg 0 (mmu_initial_mappings s) s)
    as [[] s1|s1] eqn:Hloop; cbn in Hlog.
  - rewrite (resolver_returned cfg env s s1 Hloop).
    rewrite (appended_app s _ (evs ++ [EvPmmAddArena (ram_arena s1)
               (pmm_add_arena env (log s1) (ram_arena s1))])).
    2:{ cbn. by rewrite Hlog, app_assoc. }
    split; intros Hin; apply elem_of_app in Hin as [Hin|Hin];
      try (apply Hclean; auto; fail);
      apply list_elem_of_singleton in Hin; discriminate.
  - rewrite (resolver_fault cfg env s s1 Hloop).
    rewrite (appended_app s _ evs) by done.
    split; intros Hin; apply Hclean; auto.
Qed.

Lemma null_entry_never_read_witness :
  (EvStrcmp 2
     ∉ appended scenario_machine
         (platform_init_mmu_mappings sample_config obliging_env
            scenario_machine))
  ∧ (EvArenaWrite 2
       ∉ appended scenario_machine
           (platform_init_mmu_mappings sample_config obliging_env
              scenario_machine)).
Proof.
  apply (null_entry_never_read sample_config obliging_env scenario_machine 2).
  reflexivity.
Defined.

(** C6. Every run of [platform_init_mmu_mappings] on a readable table
    returns having called [pmm_add_arena] exactly once, whether or not an
    entry of the table matched the arena. *)
Theorem arena_registered_exactly_once
    (cfg : build_config) (env : collaborators) (s : machine) :
  names_readable cfg (mmu_initial_mappings s) →
  returns (platform_init_mmu_mappings cfg env s) = true
  ∧ count_events is_pmm_add_arena
      (appended s (platform_init_mmu_mappings cfg env s)) = 1%nat.
Proof.
  intros Hrd.
  destruct (mappings_loop_total cfg (mmu_initial_mappings s) 0 s Hrd)
    as (s1 & evs & Hloop & Hlog & Hcount).
  rewrite (resolver_returned cfg env s s1 Hloop). split; [done|].
  rewrite (appended_app s _ (evs ++ [EvPmmAddArena (ram_arena s1)
             (pmm_add_arena env (log s1) (ram_arena s1))])).
  2:{ cbn. by rewrite Hlog, app_assoc. }
  by rewrite count_events_app, Hcount.
Qed.

Lemma arena_registered_exactly_once_witness :
  returns (platform_init_mmu_mappings sample_config obliging_env
             scenario_machine) = true
  ∧ count_events is_pmm_add_arena
      (appended scenario_machine
         (platform_init_mmu_mappings sample_config obliging_env
            scenario_machine)) = 1%nat.
Proof.
  apply (arena_registered_exactly_once sample_config obliging_env
           scenario_machine).
  apply scenario_readable.
Defined.

(** C10. When two or more entries are dynamic and carry the arena's name,
    the arena receives base and size of the first of them in table order;
    the arena is overwritten once in the run, from that entry, and no name
    at a later index is compared. *)
Theorem first_matching_entry_wins
    (cfg : build_config) (env : collaborators) (s : machine)
    (i j : nat) (mi mj : mmu_initial_mapping) :
  names_readable cfg (mmu_initial_mappings s) →
  mmu_initial_mappings s !! i = Some mi →
  names_arena cfg (ram_arena s) mi →
  (∀ k mk, mmu_initial_mappings s !! k = Some mk → (k < i)%nat →
           ¬ names_arena cfg (ram_arena s) mk) →
  mmu_initial_mappings s !! j = Some mj →
  names_arena cfg (ram_arena s) mj →
  (i < j)%nat →
  ∃ s',
    platform_init_mmu_mappings cfg env s = Returned tt s'
    ∧ arena_base (ram_arena s') = phys mi
    ∧ arena_size (ram_arena s') = size mi
    ∧ count_events is_arena_write
        (appended s (platform_init_mmu_mappings cfg env s)) = 1%nat
    ∧ EvArenaWrite i ∈ appended s (platform_init_mmu_mappings cfg env s)
    ∧ ∀ k, EvStrcmp k ∈ appended s (platform_init_mmu_mappings cfg env s) →
           (k ≤ i)%nat.
Proof.
  intros Hrd Hi Hmi Hfirst _ _ _.
  assert (Hfind : list_find (names_arena cfg (ram_arena s))
                    (mmu_initial_mappings s) = Some (i, mi)).
  { apply list_find_Some. split; [done|]. by split. }
  pose proof (mappings_loop_first_match cfg _ 0 s i mi Hrd Hfind) as Hloop.
  rewrite (resolver_returned cfg env s _ Hloop).
  eexists. split; [reflexivity|]. split; [done|]. split; [done|].
  rewrite (appended_app s _
             ((EvStrcmp <$> dynamic_indices cfg 0
                              (take (S i) (mmu_initial_mappings s)))
              ++ [EvArenaWrite i; EvPmmAddArena
                    {| arena_name := arena_name (ram_arena s);
                       arena_base := phys mi;
                       arena_size := size mi;
                       arena_flags := PMM_ARENA_FLAG_KMAP cfg |}
                    (pmm_add_arena env
                       (log s
                        ++ (EvStrcmp <$> dynamic_indices cfg 0
                              (take (S i) (mmu_initial_mappings s)))
                        ++ [EvArenaWrite (0 + i)])
                       {| arena_name := arena_name (ram_arena s);
                          arena_base := phys mi;
                          arena_size := size mi;
                          arena_flags := PMM_ARENA_FLAG_KMAP cfg |})])).
  2:{ cbn. by rewrite <- !app_assoc. }
  split; [|split].
  - by rewrite count_events_app, count_events_strcmp by auto.
  - apply elem_of_app. right. by left.
  - intros k Hk. apply elem_of_app in Hk as [Hk|Hk].
    + apply list_elem_of_fmap in Hk as (k' & Heq & Hk').
      injection Heq as ->.
      apply dynamic_indices_bounds in Hk' as (m & _ & Hm & _).
      apply lookup_lt_Some in Hm. rewrite length_take in Hm. lia.
    + rewrite !elem_of_cons, elem_of_nil in Hk. by split_events.
Qed.

Lemma twin_machine_readable :
  names_readable sample_config (mmu_initial_mappings twin_machine).
Proof.
  intros m Hm Hd. cbn in Hm.
  rewrite !elem_of_cons, elem_of_nil in Hm.
  destruct Hm as [-> | [-> | [-> | [-> | []]]]]; cbn; [done|done|done|].
  by destruct (null_entry_not_dynamic sample_config).
Defined.

Lemma first_matching_entry_wins_witness :
  ∃ s',
    platform_init_mmu_mappings sample_config obliging_env twin_machine
      = Returned tt s'
    ∧ arena_base (ram_arena s') = 0x80000000
    ∧ arena_size (ram_arena s') = 0x40000000
    ∧ count_events is_arena_write
        (appended twin_machine
           (platform_init_mmu_mappings sample_config obliging_env
              twin_machine)) = 1%nat
    ∧ EvArenaWrite 1
        ∈ appended twin_machine
            (platform_init_mmu_mappings sample_config obliging_env
               twin_machine)
    ∧ ∀ k, EvStrcmp k
             ∈ appended twin_machine
                 (platform_init_mmu_mappings sample_config obliging_env
                    twin_machine) →
           (k ≤ 1)%nat.
Proof.
  apply (first_matching_entry_wins sample_config obliging_env twin_machine
           1 2
           {| phys := 0x80000000; virt := 0xffffffffe0000000;
              size := 0x40000000; flags := 0x8; name := Some "ram" |}
           {| phys := 0xc0000000; virt := 0xffffffffe8000000;
              size := 0x10000000; flags := 0x8; name := Some "ram" |}).
  - apply twin_machine_readable.
  - reflexivity.
  - split; [by vm_compute|reflexivity].
  - intros [|k] mk Hk Hlt [Hd _]; [|lia].
    cbn in Hk. injection Hk as <-. by apply Hd.
  - reflexivity.
  - split; [by vm_compute|reflexivity].
  - lia.
Defined.

(** *** Registration failure *)

Lemma starved_machine_readable :
  names_readable sample_config (mmu_initial_mappings starved_machine).
Proof.
  intros m Hm Hd. cbn in Hm.
  rewrite !elem_of_cons, elem_of_nil in Hm.
  destruct Hm as [-> | [-> | [-> | []]]]; cbn; [done|done|].
  by destruct (null_entry_not_dynamic sample_config).
Defined.

(** C3, as stated, fails: on the starved table the allocator rejects the
    zero-sized arena with status -8, and the resolver returns to its caller
    all the same. *)
Lemma registration_failure_not_fatal :
  ¬ registration_failure_is_fatal sample_config refusing_env starved_machine.
Proof.
  intros Hfatal.
  specialize (Hfatal
    {| arena_name := "ram"; arena_base := 0x80000000;
       arena_size := 0; arena_flags := 0x1 |} (-8)).
  assert (Hret : returns (platform_init_mmu_mappings sample_config
                            refusing_env starved_machine) = true)
    by (vm_compute; reflexivity).
  rewrite Hfatal in Hret; [discriminate| |lia].
  apply list_elem_of_lookup. exists 2%nat. vm_compute. reflexivity.
Qed.

(** C3, amended.  The resolver does not look at what [pmm_add_arena]
    returns: on every readable table and with every allocator, accepting or
    rejecting, the run returns to its caller; the call to [pmm_add_arena] is
    the last thing it does, it passes the arena as resolved, and there is no
    second call. *)
Theorem registration_status_ignored
    (cfg : build_config) (env : collaborators) (s : machine) :
  names_readable cfg (mmu_initial_mappings s) →
  ∃ s' evs,
    platform_init_mmu_mappings cfg env s = Returned tt s'
    ∧ appended s (platform_init_mmu_mappings cfg env s)
        = evs ++ [EvPmmAddArena (ram_arena s')
                    (pmm_add_arena env (log s ++ evs) (ram_arena s'))]
    ∧ count_events is_pmm_add_arena evs = 0%nat.
Proof.
  intros Hrd.
  destruct (mappings_loop_total cfg (mmu_initial_mappings s) 0 s Hrd)
    as (s1 & evs & Hloop & Hlog & Hcount).
  rewrite (resolver_returned cfg env s s1 Hloop).
  eexists _, evs. split; [reflexivity|]. split; [|done].
  apply appended_app. cbn. by rewrite Hlog, app_assoc.
Qed.

Lemma registration_status_ignored_witness :
  ∃ s' evs,
    platform_init_mmu_mappings sample_config refusing_env starved_machine
      = Returned tt s'
    ∧ appended starved_machine
        (platform_init_mmu_mappings sample_config refusing_env
           starved_machine)
        = evs ++ [EvPmmAddArena (ram_arena s')
                    (pmm_add_arena refusing_env
                       (log starved_machine ++ evs) (ram_arena s'))]
    ∧ count_events is_pmm_add_arena evs = 0%nat.
Proof.
  apply (registration_status_ignored sample_config refusing_env
           starved_machine).
  apply starved_machine_readable.
Defined.

(** ** The device register mapper and the secure register locator *)

Section Mapper.

Context (cfg : build_config) (env : collaborators).

Lemma tegra_map_regs_eq nm vaddr paddr sz s :
  tegra_map_regs cfg env nm vaddr paddr sz s
    = Returned tt
        (logged s
           (map_regs_events cfg vaddr paddr
              (vmm_alloc_physical env (log s)
                 (gic_request cfg vaddr paddr)))).
Proof.
  unfold tegra_map_regs, map_regs_events, call_vmm_alloc_physical.
  fold (gic_request cfg vaddr paddr).
  set (ret := vmm_alloc_physical env (log s) (gic_request cfg vaddr paddr)).
  unfold bind, get, emit, pure, dprintf; cbn. fold ret.
  destruct (ret =? 0); cbn; [done|].
  rewrite emit_logged. unfold logged; cbn. by rewrite <- app_assoc.
Qed.

Lemma tegra_get_reg_base_eq reg s :
  tegra_get_reg_base cfg env reg s
    = Returned (tegra_smc env (log s) (get_reg_base_fid cfg) reg 0 0)
        (logged s
           [EvSmc (get_reg_base_fid cfg) reg 0 0
              (tegra_smc env (log s) (get_reg_base_fid cfg) reg 0 0)]).
Proof.
  unfold tegra_get_reg_base, get_reg_base_fid.
  by destruct (ARCH_ARM64 cfg).
Qed.

End Mapper.

(** C2, at the call that maps the distributor.  [tegra_map_regs] does not
    use its [name] and [size] parameters: called as Stage B calls it for
    GICD, it asks the virtual memory manager for a region named "gic" of
    [GICC_SIZE] bytes, at the given virtual and physical addresses,
    uncached device; so the request is not the one the caller described. *)
Theorem gicd_mapping_requests_gic_of_gicc_size
    (cfg : build_config) (env : collaborators) (gicd : Z) (s : machine) :
  (∃ ret diag,
     appended s
       (tegra_map_regs cfg env "gicd" (GICD_BASE_VIRT cfg) gicd
          (GICD_SIZE cfg) s)
     = EvVmmAllocPhysical
         {| req_name := "gic";
            req_size := GICC_SIZE cfg;
            req_vaddr := Some (GICD_BASE_VIRT cfg);
            req_align_log2 := 0;
            req_paddr := gicd;
            req_vmm_flags := VMM_FLAG_VALLOC_SPECIFIC cfg;
            req_arch_mmu_flags := ARCH_MMU_FLAG_UNCACHED_DEVICE cfg |} ret
       :: diag)
  ∧ ¬ maps_what_was_asked cfg env "gicd" (GICD_BASE_VIRT cfg) gicd
        (GICD_SIZE cfg) s.
Proof.
  split.
  - rewrite tegra_map_regs_eq, appended_logged. unfold map_regs_events.
    by eexists _, _.
  - intros (req & ret & rest & Hlog & Hname & _).
    rewrite tegra_map_regs_eq, appended_logged in Hlog.
    unfold map_regs_events in Hlog. injection Hlog as <- _ _.
    discriminate Hname.
Qed.

(** On the sample build the size is wrong as well as the name: the
    distributor is 0x1000 bytes, the request is for 0x2000. *)
Example gicd_mapping_on_the_sample_build :
  appended scenario_machine
    (tegra_map_regs sample_config obliging_env "gicd" 0xffffffffe0041000
       0x50051000 0x1000 scenario_machine)
  = [EvVmmAllocPhysical
       {| req_name := "gic"; req_size := 0x2000;
          req_vaddr := Some 0xffffffffe0041000; req_align_log2 := 0;
          req_paddr := 0x50051000; req_vmm_flags := 0x1;
          req_arch_mmu_flags := 0x2 |} 0].
Proof. reflexivity. Qed.

(** C9. Each invocation of [tegra_get_reg_base] makes one secure monitor
    call and nothing else: the function id is the 64-bit one on ARM64 and
    the 32-bit one otherwise, the arguments are the register block
    identifier followed by two zeros in either case, and the value the
    monitor returns is the value returned.  Nothing is kept between
    invocations: a second invocation calls the monitor again and returns
    what the monitor answers then. *)
Theorem tegra_get_reg_base_calls_the_monitor
    (cfg : build_config) (env : collaborators) (reg : Z) (s : machine) :
  let fid := if ARCH_ARM64 cfg then SMC_FC64_GET_REG_BASE cfg
             else SMC_FC_GET_REG_BASE cfg in
  let r1 := tegra_smc env (log s) fid reg 0 0 in
  let r2 := tegra_smc env (log s ++ [EvSmc fid reg 0 0 r1]) fid reg 0 0 in
  tegra_get_reg_base cfg env reg s
    = Returned r1 (logged s [EvSmc fid reg 0 0 r1])
  ∧ (tegra_get_reg_base cfg env reg;; tegra_get_reg_base cfg env reg) s
    = Returned r2 (logged s [EvSmc fid reg 0 0 r1; EvSmc fid reg 0 0 r2]).
Proof.
  intros fid r1 r2. split.
  - apply tegra_get_reg_base_eq.
  - rewrite (bind_returned _ _ _ _ _ (tegra_get_reg_base_eq cfg env reg s)).
    rewrite tegra_get_reg_base_eq. by rewrite logged_logged.
Qed.

(** Two invocations in a row see two different answers and return them. *)
Example tegra_get_reg_base_twice :
  (a <- tegra_get_reg_base sample_config drifting_env 0;;
   b <- tegra_get_reg_base sample_config drifting_env 0;;
   pure (a, b)) scenario_machine
  = Returned (0x50041000, 0x50041001)
      (logged scenario_machine
         [EvSmc 0xc2000001 0 0 0 0x50041000;
          EvSmc 0xc2000001 0 0 0 0x50041001]).
Proof. reflexivity. Qed.

(** ** The staged bring-up *)

Section Stages.

Context (cfg : build_config) (env : collaborators).

(** Everything Stage B does, in order: the two monitor calls, the
    informational line, the two mapping attempts each followed by its
    diagnostic if it failed, then the two driver initialisations. *)
Lemma stage_B_log lvl s :
  ∃ gicc gicd r1 r2,
    platform_after_vm_init cfg env lvl s
      = Returned tt
          (logged s
             ([EvSmc (get_reg_base_fid cfg) (SMC_GET_GIC_BASE_GICC cfg)
                 0 0 gicc;
               EvSmc (get_reg_base_fid cfg) (SMC_GET_GIC_BASE_GICD cfg)
                 0 0 gicd;
               EvDprintf (INFO cfg) ("gicc 0x%lx, gicd 0x%lx" +:+ LF)
                 [ArgULong gicc; ArgULong gicd]]
              ++ map_regs_events cfg (GICC_BASE_VIRT cfg) gicc r1
              ++ map_regs_events cfg (GICD_BASE_VIRT cfg) gicd r2
              ++ [EvGicInit; EvTimerInit (ARM_GENERIC_TIMER_INT cfg) 0])).
Proof.
  unfold platform_after_vm_init. eexists _, _, _, _.
  rewrite (bind_returned _ _ _ _ _ (tegra_get_reg_base_eq cfg env _ s)).
  rewrite (bind_returned _ _ _ _ _ (tegra_get_reg_base_eq cfg env _ _)).
  unfold dprintf at 1.
  rewrite (bind_returned _ _ _ _ _ (emit_logged _ _)).
  rewrite (bind_returned _ _ _ _ _ (tegra_map_regs_eq cfg env _ _ _ _ _)).
  rewrite (bind_returned _ _ _ _ _ (tegra_map_regs_eq cfg env _ _ _ _ _)).
  unfold arm_gic_init, arm_generic_timer_init.
  rewrite (bind_returned _ _ _ _ _ (emit_logged _ _)), emit_logged.
  rewrite !logged_logged, <- !app_assoc. reflexivity.
Qed.

Lemma stage_A_returns lvl s :
  returns (platform_during_vm_init cfg env lvl s) = true.
Proof.
  unfold platform_during_vm_init, call_vmm_alloc_physical, bind, get, emit,
    pure, dprintf; cbn.
  by destruct (_ =? 0).
Qed.

End Stages.

(** C8. When the virtual memory manager answers the GICC mapping (the first
    mapping request of Stage B) with a nonzero status, Stage B logs the
    diagnostic carrying that status right after the failed request, then
    makes the mapping request for GICD (followed by its own diagnostic
    exactly when that one fails too), then calls [arm_gic_init] and
    [arm_generic_timer_init], and returns.  This is the whole of what the
    hook does: the GICC request is made once, nothing is aborted, repeated
    or undone. *)
Theorem gicc_failure_is_logged_and_stage_B_goes_on
    (cfg : build_config) (env : collaborators) (lvl : Z) (s : machine)
    (ret : Z) :
  first_vmm_status (appended s (platform_after_vm_init cfg env lvl s))
    = Some ret →
  ret ≠ 0 →
  ∃ gicc gicd ret',
    returns (platform_after_vm_init cfg env lvl s) = true
    ∧ appended s (platform_after_vm_init cfg env lvl s)
      = [EvSmc (get_reg_base_fid cfg) (SMC_GET_GIC_BASE_GICC cfg) 0 0 gicc;
         EvSmc (get_reg_base_fid cfg) (SMC_GET_GIC_BASE_GICD cfg) 0 0 gicd;
         EvDprintf (INFO cfg) ("gicc 0x%lx, gicd 0x%lx" +:+ LF)
           [ArgULong gicc; ArgULong gicd];
         EvVmmAllocPhysical (gic_request cfg (GICC_BASE_VIRT cfg) gicc) ret;
         EvDprintf (CRITICAL cfg) ("%s: failed %d" +:+ LF)
           [ArgStr "tegra_map_regs"; ArgInt ret];
         EvVmmAllocPhysical (gic_request cfg (GICD_BASE_VIRT cfg) gicd) ret']
        ++ (if ret' =? 0 then []
            else [EvDprintf (CRITICAL cfg) ("%s: failed %d" +:+ LF)
                    [ArgStr "tegra_map_regs"; ArgInt ret']])
        ++ [EvGicInit; EvTimerInit (ARM_GENERIC_TIMER_INT cfg) 0].
Proof.
  destruct (stage_B_log cfg env lvl s) as (gicc & gicd & r1 & r2 & Hrun).
  rewrite Hrun, appended_logged. cbn.
  intros [= ->] Hret.
  exists gicc, gicd, r2.
  split; [done|].
  destruct (Z.eqb_spec ret 0) as [|_]; [done|]. reflexivity.
Qed.

Lemma gicc_failure_is_logged_and_stage_B_goes_on_witness :
  ∃ gicc gicd ret',
    returns (platform_after_vm_init sample_config refusing_env 0x50002
               scenario_machine) = true
    ∧ appended scenario_machine
        (platform_after_vm_init sample_config refusing_env 0x50002
           scenario_machine)
      = [EvSmc 0xc2000001 0 0 0 gicc;
         EvSmc 0xc2000001 1 0 0 gicd;
         EvDprintf 1 ("gicc 0x%lx, gicd 0x%lx" +:+ LF)
           [ArgULong gicc; ArgULong gicd];
         EvVmmAllocPhysical
           (gic_request sample_config 0xffffffffe0042000 gicc) (-5);
         EvDprintf 0 ("%s: failed %d" +:+ LF)
           [ArgStr "tegra_map_regs"; ArgInt (-5)];
         EvVmmAllocPhysical
           (gic_request sample_config 0xffffffffe0041000 gicd) ret']
        ++ (if ret' =? 0 then []
            else [EvDprintf 0 ("%s: failed %d" +:+ LF)
                    [ArgStr "tegra_map_regs"; ArgInt ret']])
        ++ [EvGicInit; EvTimerInit 29 0].
Proof.
  apply (gicc_failure_is_logged_and_stage_B_goes_on sample_config
           refusing_env 0x50002 scenario_machine (-5)).
  - reflexivity.
  - lia.
Defined.

(** ** Order of the two hooks *)

Lemma bind_ext {A B : Type} (m : M A) (k k' : A -> M B) s :
  (∀ a s', k a s' = k' a s') → bind m k s = bind m k' s.
Proof. intros H. unfold bind. by destruct (m s). Qed.

Lemma run_hooks_app (hs1 hs2 : list lk_init_struct) (s : machine) :
  run_hooks (hs1 ++ hs2) s = (run_hooks hs1;; run_hooks hs2) s.
Proof.
  revert s. induction hs1 as [|h hs1 IH]; intros s; cbn; [done|].
  rewrite bind_assoc. by apply bind_ext.
Qed.

#[local] Instance level_le_transitive :
  Transitive (fun a b : lk_init_struct => level a <= level b).
Proof. intros a b c. lia. Qed.

(** C7. In every boot whose hook registry keeps its promise (each registered
    callback run exactly once, levels never decreasing), whatever other
    hooks the rest of the kernel registered, [platform_during_vm_init]
    (Stage A, level VM+1) runs before [platform_after_vm_init] (Stage B,
    level VM+2): the run is some hooks, then Stage A, then some hooks, then
    Stage B, then the rest. *)
Theorem stage_A_runs_before_stage_B
    (cfg : build_config) (env : collaborators)
    (others run : list lk_init_struct) :
  0 <= LK_INIT_LEVEL_VM cfg →
  LK_INIT_LEVEL_VM cfg + 2 < 2 ^ 32 →
  boot_schedule (platform_hooks cfg env ++ others) run →
  ∃ before between after,
    run = before ++ platform_during_vm cfg env
                 :: between ++ platform_after_vm cfg env :: after
    ∧ ∀ s,
        run_hooks run s
        = (run_hooks before;;
           platform_during_vm_init cfg env (LK_INIT_LEVEL_VM cfg + 1);;
           run_hooks between;;
           platform_after_vm_init cfg env (LK_INIT_LEVEL_VM cfg + 2);;
           run_hooks after) s.
Proof.
  intros Hlo Hhi [Hperm Hsorted].
  assert (HlevA : level (platform_during_vm cfg env)
                  = LK_INIT_LEVEL_VM cfg + 1).
  { cbn. unfold wrap. apply Z.mod_small. lia. }
  assert (HlevB : level (platform_after_vm cfg env)
                  = LK_INIT_LEVEL_VM cfg + 2).
  { cbn. unfold wrap. apply Z.mod_small. lia. }
  apply (Sorted_StronglySorted _) in Hsorted.
  assert (HA : platform_during_vm cfg env ∈ run).
  { rewrite Hperm. apply elem_of_app. left. by left. }
  assert (HB : platform_after_vm cfg env ∈ run).
  { rewrite Hperm. apply elem_of_app. left. right. by left. }
  apply list_elem_of_split in HA as (before & rest & ->).
  assert (HBrest : platform_after_vm cfg env ∈ rest).
  { apply elem_of_app in HB as [HB|HB].
    - exfalso.
      pose proof (StronglySorted_app_1_elem_of _ _ _ _
                    (platform_during_vm cfg env) Hsorted HB) as Hle.
      cbv beta in Hle. rewrite HlevA, HlevB in Hle.
      specialize (Hle ltac:(by left)). lia.
    - apply elem_of_cons in HB as [HB|HB]; [|done].
      exfalso. apply (f_equal level) in HB. rewrite HlevA, HlevB in HB. lia. }
  apply list_elem_of_split in HBrest as (between & after & ->).
  exists before, between, after. split; [done|].
  intros s. rewrite run_hooks_app. apply bind_ext. intros _ s1.
  cbn [run_hooks]. rewrite HlevA. apply bind_ext. intros _ s2.
  rewrite run_hooks_app. apply bind_ext. intros _ s3.
  cbn [run_hooks]. by rewrite HlevB.
Qed.

Lemma stage_A_runs_before_stage_B_witness :
  ∃ before between after,
    platform_hooks sample_config obliging_env
    = before ++ platform_during_vm sample_config obliging_env
             :: between ++ platform_after_vm sample_config obliging_env
             :: after
    ∧ ∀ s,
        run_hooks (platform_hooks sample_config obliging_env) s
        = (run_hooks before;;
           platform_during_vm_init sample_config obliging_env
             (LK_INIT_LEVEL_VM sample_config + 1);;
           run_hooks between;;
           platform_after_vm_init sample_config obliging_env
             (LK_INIT_LEVEL_VM sample_config + 2);;
           run_hooks after) s.
Proof.
  apply (stage_A_runs_before_stage_B sample_config obliging_env []
           (platform_hooks sample_config obliging_env)).
  - cbn. lia.
  - cbn. lia.
  - split.
    + by rewrite app_nil_r.
    + repeat constructor. by vm_compute.
Defined.

(** The log of that boot: the UART mapping of Stage A comes first, then the
    monitor calls, mappings and driver initialisations of Stage B. *)
Example sample_boot_log :
  appended scenario_machine
    (run_hooks (platform_hooks sample_config obliging_env) scenario_machine)
  = [EvVmmAllocPhysical
       {| req_name := "uart"; req_size := 4096; req_vaddr := None;
          req_align_log2 := 12; req_paddr := 0x70006000;
          req_vmm_flags := 0; req_arch_mmu_flags := 0x2 |} 0;
     EvSmc 0xc2000001 0 0 0 0x50041000;
     EvSmc 0xc2000001 1 0 0 0x50051000;
     EvDprintf 1 ("gicc 0x%lx, gicd 0x%lx" +:+ LF)
       [ArgULong 0x50041000; ArgULong 0x50051000];
     EvVmmAllocPhysical
       (gic_request sample_config 0xffffffffe0042000 0x50041000) 0;
     EvVmmAllocPhysical
       (gic_request sample_config 0xffffffffe0041000 0x50051000) 0;
     EvGicInit;
     EvTimerInit 29 0].
Proof. reflexivity. Qed.

(** * Further properties of the resolver *)

Section ResolverMore.

Context (cfg : build_config) (env : collaborators).

(** Whether the arena's name is on an entry depends on the arena's name
    alone. *)
Lemma names_arena_same_name a a' m :
  arena_name a' = arena_name a →
  names_arena cfg a' m ↔ names_arena cfg a m.
Proof. unfold names_arena. by intros ->. Qed.

(** The loop never writes the table, the debug port or the arena's name,
    wherever it stops. *)
Lemma mappings_loop_frame ms i s :
  mmu_initial_mappings (final (mappings_loop cfg i ms s))
    = mmu_initial_mappings s
  ∧ debug_uart_id (final (mappings_loop cfg i ms s)) = debug_uart_id s
  ∧ arena_name (ram_arena (final (mappings_loop cfg i ms s)))
    = arena_name (ram_arena s).
Proof.
  revert i s. induction ms as [|m0 ms IH]; intros i s; cbn [mappings_loop].
  { done. }
  destruct (Z.land (flags m0) (MMU_INITIAL_MAPPING_FLAG_DYNAMIC cfg) =? 0).
  { apply IH. }
  destruct (name m0) as [cs|].
  - rewrite (bind_returned _ _ _ _ _ (strcmp_name_some i cs s)).
    destruct (strcmp cs (arena_name (ram_arena s)) =? 0).
    + by rewrite update_ram_arena_eq.
    + apply (IH (S i) (logged s [EvStrcmp i])).
  - by rewrite (bind_fault _ _ _ _ (strcmp_name_null i s)).
Qed.

(** The loop on a table that reaches a dynamic entry [m] of the arena's
    name after the entries [pre]: what follows [m] is not looked at, so it
    need not even be readable. *)
Lemma mappings_loop_break pre m tail i s :
  names_readable cfg pre →
  (∀ m', m' ∈ pre → ¬ names_arena cfg (ram_arena s) m') →
  names_arena cfg (ram_arena s) m →
  mappings_loop cfg i (pre ++ m :: tail) s
    = Returned tt
        {| mmu_initial_mappings := mmu_initial_mappings s;
           ram_arena := {| arena_name := arena_name (ram_arena s);
                           arena_base := phys m;
                           arena_size := size m;
                           arena_flags := PMM_ARENA_FLAG_KMAP cfg |};
           debug_uart_id := debug_uart_id s;
           log := log s
                  ++ (EvStrcmp <$> dynamic_indices cfg i pre)
                  ++ [EvStrcmp (i + length pre);
                      EvArenaWrite (i + length pre)] |}.
Proof.
  revert i s. induction pre as [|m0 pre IH]; intros i s Hrd Hno [Hd Hn].
  - cbn [app mappings_loop dynamic_indices fmap list_fmap length].
    destruct (Z.eqb_spec (Z.land (flags m)
                (MMU_INITIAL_MAPPING_FLAG_DYNAMIC cfg)) 0) as [Hz|_].
    { by destruct Hd. }
    rewrite Hn.
    rewrite (bind_returned _ _ _ _ _
               (strcmp_name_some i (arena_name (ram_arena s)) s)).
    rewrite (proj2 (strcmp_eq_0 _ _) eq_refl). cbn [Z.eqb].
    rewrite update_ram_arena_eq. cbn.
    rewrite Nat.add_0_r. by rewrite <- app_assoc.
  - assert (Hrd' : names_readable cfg pre).
    { intros m' Hin. apply Hrd. by right. }
    assert (Hno' : ∀ s0, ram_arena s0 = ram_arena s →
              ∀ m', m' ∈ pre → ¬ names_arena cfg (ram_arena s0) m').
    { intros s0 -> m' Hin. apply Hno. by right. }
    cbn [app mappings_loop dynamic_indices length].
    replace (i + S (length pre))%nat with (S i + length pre)%nat by lia.
    destruct (Z.eqb_spec (Z.land (flags m0)
                (MMU_INITIAL_MAPPING_FLAG_DYNAMIC cfg)) 0) as [Hz|Hnz].
    + rewrite decide_False by (unfold is_dynamic; tauto).
      apply IH; [done|by apply Hno'|done].
    + rewrite (decide_True (P := is_dynamic cfg m0)) by done.
      destruct (name m0) as [cs|] eqn:Hname.
      2:{ exfalso. by apply (Hrd m0); [left| |]. }
      rewrite (bind_returned _ _ _ _ _ (strcmp_name_some i cs s)).
      destruct (Z.eqb_spec (strcmp cs (arena_name (ram_arena s))) 0)
        as [Heq|_].
      { exfalso. apply strcmp_eq_0 in Heq. subst cs.
        apply (Hno m0); [by left|]. by split. }
      rewrite (IH (S i) (logged s [EvStrcmp i]));
        [|done|by apply Hno'|done].
      cbn. by rewrite <- app_assoc.
Qed.

(** The loop on a table that reaches a dynamic entry without a name after
    the entries [pre], none of which matched: the null name goes to
    [strcmp], and the run has no continuation. *)
Lemma mappings_loop_null_name pre m tail i s :
  names_readable cfg pre →
  (∀ m', m' ∈ pre → ¬ names_arena cfg (ram_arena s) m') →
  is_dynamic cfg m →
  name m = None →
  mappings_loop cfg i (pre ++ m :: tail) s
    = Fault (logged s ((EvStrcmp <$> dynamic_indices cfg i pre)
                       ++ [EvStrcmp (i + length pre)])).
Proof.
  revert i s. induction pre as [|m0 pre IH]; intros i s Hrd Hno Hd Hn.
  - cbn [app mappings_loop dynamic_indices fmap list_fmap length].
    destruct (Z.eqb_spec (Z.land (flags m)
                (MMU_INITIAL_MAPPING_FLAG_DYNAMIC cfg)) 0) as [Hz|_].
    { by destruct Hd. }
    rewrite Hn, (bind_fault _ _ _ _ (strcmp_name_null i s)).
    by rewrite Nat.add_0_r.
  - assert (Hrd' : names_readable cfg pre).
    { intros m' Hin. apply Hrd. by right. }
    assert (Hno' : ∀ s0, ram_arena s0 = ram_arena s →
              ∀ m', m' ∈ pre → ¬ names_arena cfg (ram_arena s0) m').
    { intros s0 -> m' Hin. apply Hno. by right. }
    cbn [app mappings_loop dynamic_indices length].
    replace (i + S (length pre))%nat with (S i + length pre)%nat by lia.
    destruct (Z.eqb_spec (Z.land (flags m0)
                (MMU_INITIAL_MAPPING_FLAG_DYNAMIC cfg)) 0) as [Hz|Hnz].
    + rewrite decide_False by (unfold is_dynamic; tauto).
      apply IH; [done|by apply Hno'|done|done].
    + rewrite (decide_True (P := is_dynamic cfg m0)) by done.
      destruct (name m0) as [cs|] eqn:Hname.
      2:{ exfalso. by apply (Hrd m0); [left| |]. }
      rewrite (bind_returned _ _ _ _ _ (strcmp_name_some i cs s)).
      destruct (Z.eqb_spec (strcmp cs (arena_name (ram_arena s))) 0)
        as [Heq|_].
      { exfalso. apply strcmp_eq_0 in Heq. subst cs.
        apply (Hno m0); [by left|]. by split. }
      rewrite (IH (S i) (logged s [EvStrcmp i]));
        [|done|by apply Hno'|done|done].
      by rewrite logged_logged.
Qed.

End ResolverMore.

(** X1. Whatever the table, and whether or not the walk gets to its end,
    [platform_init_mmu_mappings] leaves the table, the debug port
    identifier and the arena's name as they were: the only global it writes
    is the arena's base, size and flags. *)
Theorem resolver_writes_only_the_arena_region
    (cfg : build_config) (env : collaborators) (s : machine) :
  mmu_initial_mappings (final (platform_init_mmu_mappings cfg env s))
    = mmu_initial_mappings s
  ∧ debug_uart_id (final (platform_init_mmu_mappings cfg env s))
    = debug_uart_id s
  ∧ arena_name (ram_arena (final (platform_init_mmu_mappings cfg env s)))
    = arena_name (ram_arena s).
Proof.
  pose proof (mappings_loop_frame cfg (mmu_initial_mappings s) 0 s) as Hframe.
  destruct (mappings_loop cfg 0 (mmu_initial_mappings s) s)
    as [[] s1|s1] eqn:Hloop.
  - by rewrite (resolver_returned cfg env s s1 Hloop).
  - by rewrite (resolver_fault cfg env s s1 Hloop).
Qed.

(** X2. On the machine as linked, with the table untouched, the resolver
    returns with the arena equal to its initialiser and registers exactly
    that arena, in every build configuration: the initialisers of
    [mmu_initial_mappings] and of [ram_arena] agree. *)
Theorem resolver_on_the_linked_table
    (cfg : build_config) (env : collaborators) :
  ∃ s' ret,
    platform_init_mmu_mappings cfg env (boot_machine cfg) = Returned tt s'
    ∧ ram_arena s' = ram_arena_init cfg
    ∧ last (log s') = Some (EvPmmAddArena (ram_arena_init cfg) ret).
Proof.
  destruct (Z.eq_dec (MMU_INITIAL_MAPPING_FLAG_DYNAMIC cfg) 0) as [Hz|Hnz].
  - assert (Hnone : ∀ m, ¬ is_dynamic cfg m).
    { intros m Hd. apply Hd. rewrite Hz. apply Z.land_0_r. }
    eexists _, _. split.
    + apply resolver_returned.
      apply (mappings_loop_no_match cfg _ 0 (boot_machine cfg)).
      * intros m _ Hd. by destruct (Hnone m).
      * intros m _ [Hd _]. by destruct (Hnone m).
    + split; [done|]. exact (last_snoc _ _).
  - eexists _, _. split.
    + apply resolver_returned.
      apply (mappings_loop_break cfg [] _ _ 0 (boot_machine cfg)).
      * by intros m ?%elem_of_nil.
      * by intros m ?%elem_of_nil.
      * split; [|done]. unfold is_dynamic; cbn. by rewrite Z.land_diag.
    + split; [done|]. exact (last_snoc _ _).
Qed.

(** X3. When the dynamic flag is a real flag and the reset code stored the
    RAM it found (base [p], size [sz]) in the first entry of the linked
    table, the resolver returns with the arena at base [p], size [sz],
    flags [PMM_ARENA_FLAG_KMAP], name "ram", and registers that arena. *)
Theorem resolver_follows_the_detected_ram
    (cfg : build_config) (env : collaborators) (p sz : Z) :
  MMU_INITIAL_MAPPING_FLAG_DYNAMIC cfg ≠ 0 →
  ∃ s' ret,
    platform_init_mmu_mappings cfg env (boot_machine_with_ram cfg p sz)
      = Returned tt s'
    ∧ ram_arena s'
      = {| arena_name := "ram"; arena_base := p; arena_size := sz;
           arena_flags := PMM_ARENA_FLAG_KMAP cfg |}
    ∧ last (log s') = Some (EvPmmAddArena (ram_arena s') ret).
Proof.
  intros Hnz. eexists _, _. split.
  - apply resolver_returned.
    apply (mappings_loop_break cfg [] _ _ 0 (boot_machine_with_ram cfg p sz)).
    + by intros m ?%elem_of_nil.
    + by intros m ?%elem_of_nil.
    + split; [|done]. unfold is_dynamic; cbn. by rewrite Z.land_diag.
  - split; [done|]. exact (last_snoc _ _).
Qed.

Lemma resolver_follows_the_detected_ram_witness :
  ∃ s' ret,
    platform_init_mmu_mappings sample_config obliging_env
      (boot_machine_with_ram sample_config 0x90000000 0x20000000)
      = Returned tt s'
    ∧ ram_arena s'
      = {| arena_name := "ram"; arena_base := 0x90000000;
           arena_size := 0x20000000; arena_flags := 0x1 |}
    ∧ last (log s') = Some (EvPmmAddArena (ram_arena s') ret).
Proof.
  apply (resolver_follows_the_detected_ram sample_config obliging_env
           0x90000000 0x20000000).
  by vm_compute.
Defined.

(** X4. Resolving twice resolves to the same arena: on a readable table a
    second run of [platform_init_mmu_mappings] returns too and leaves the
    arena exactly as the first run left it. *)
Theorem resolver_twice_same_arena
    (cfg : build_config) (env : collaborators) (s : machine) :
  names_readable cfg (mmu_initial_mappings s) →
  ∃ s1 s2,
    platform_init_mmu_mappings cfg env s = Returned tt s1
    ∧ platform_init_mmu_mappings cfg env s1 = Returned tt s2
    ∧ ram_arena s2 = ram_arena s1.
Proof.
  intros Hrd.
  destruct (list_find (names_arena cfg (ram_arena s))
              (mmu_initial_mappings s)) as [[k m]|] eqn:E.
  - pose proof (mappings_loop_first_match cfg _ 0 s k m Hrd E) as Hloop.
    eexists _, _. split; [apply (resolver_returned cfg env s _ Hloop)|].
    split.
    + apply resolver_returned. cbn.
      match goal with |- mappings_loop _ _ _ ?s1 = _ =>
        apply (mappings_loop_first_match cfg _ 0 s1 k m Hrd)
      end.
      rewrite <- E. apply list_find_ext. intros m'.
      by apply names_arena_same_name.
    + reflexivity.
  - apply list_find_None in E. rewrite Forall_forall in E.
    pose proof (mappings_loop_no_match cfg _ 0 s Hrd E) as Hloop.
    eexists _, _. split; [apply (resolver_returned cfg env s _ Hloop)|].
    split.
    + apply resolver_returned. cbn.
      match goal with |- mappings_loop _ _ _ ?s1 = _ =>
        apply (mappings_loop_no_match cfg _ 0 s1 Hrd E)
      end.
    + reflexivity.
Qed.

Lemma resolver_twice_same_arena_witness :
  ∃ s1 s2,
    platform_init_mmu_mappings sample_config obliging_env scenario_machine
      = Returned tt s1
    ∧ platform_init_mmu_mappings sample_config obliging_env s1
      = Returned tt s2
    ∧ ram_arena s2 = ram_arena s1.
Proof.
  apply (resolver_twice_same_arena sample_config obliging_env
           scenario_machine).
  apply scenario_readable.
Defined.

(** X5. What follows the first matching entry does not matter, readable or
    not: when the table is some readable entries [pre], none matching, then
    a dynamic entry [m] of the arena's name, then anything, the resolver
    returns with base and size of [m]; it compared the names of the dynamic
    entries of [pre] and of [m], wrote the arena from [m], registered it,
    and did nothing else. *)
Theorem entries_after_the_match_are_not_read
    (cfg : build_config) (env : collaborators) (s : machine)
    (pre tail : list mmu_initial_mapping) (m : mmu_initial_mapping) :
  mmu_initial_mappings s = pre ++ m :: tail →
  names_readable cfg pre →
  (∀ m', m' ∈ pre → ¬ names_arena cfg (ram_arena s) m') →
  names_arena cfg (ram_arena s) m →
  ∃ s' ret,
    platform_init_mmu_mappings cfg env s = Returned tt s'
    ∧ arena_base (ram_arena s') = phys m
    ∧ arena_size (ram_arena s') = size m
    ∧ appended s (platform_init_mmu_mappings cfg env s)
      = (EvStrcmp <$> dynamic_indices cfg 0 pre)
        ++ [EvStrcmp (length pre); EvArenaWrite (length pre);
            EvPmmAddArena (ram_arena s') ret].
Proof.
  intros Htbl Hrd Hno Hm.
  pose proof (mappings_loop_break cfg pre m tail 0 s Hrd Hno Hm) as Hloop.
  rewrite <- Htbl in Hloop.
  rewrite (resolver_returned cfg env s _ Hloop).
  eexists _, _. split; [reflexivity|]. split; [done|]. split; [done|].
  apply appended_app. cbn. by rewrite <- !app_assoc.
Qed.

Lemma entries_after_the_match_are_not_read_witness :
  ∃ s' ret,
    platform_init_mmu_mappings sample_config obliging_env ragged_machine
      = Returned tt s'
    ∧ arena_base (ram_arena s') = 0x80000000
    ∧ arena_size (ram_arena s') = 0x40000000
    ∧ appended ragged_machine
        (platform_init_mmu_mappings sample_config obliging_env
           ragged_machine)
      = [EvStrcmp 1; EvArenaWrite 1; EvPmmAddArena (ram_arena s') ret].
Proof.
  apply (entries_after_the_match_are_not_read sample_config obliging_env
           ragged_machine
           [ {| phys := 0x70006000; virt := 0xffffffffe0006000;
                size := 0x40; flags := 0x4; name := Some "uart" |} ]
           [ {| phys := 0; virt := 0; size := 0; flags := 0x8;
                name := None |};
             {| phys := 0; virt := 0; size := 0; flags := 0xc;
                name := None |} ]
           {| phys := 0x80000000; virt := 0xffffffffe0000000;
              size := 0x40000000; flags := 0x8; name := Some "ram" |}).
  - reflexivity.
  - intros m' Hin _. apply list_elem_of_singleton in Hin as ->. done.
  - intros m' Hin [Hd _]. apply list_elem_of_singleton in Hin as ->.
    by apply Hd.
  - split; [by vm_compute|reflexivity].
Defined.

(** X6. When no entry matches, the walk goes over the whole table: the
    names compared are those of the dynamic entries, each once and in table
    order, no entry without the dynamic flag is compared, nothing is written
    to the arena, and the arena is registered as it was. *)
Theorem unmatched_walk_compares_every_dynamic_entry
    (cfg : build_config) (env : collaborators) (s : machine) :
  names_readable cfg (mmu_initial_mappings s) →
  (∀ m, m ∈ mmu_initial_mappings s → ¬ names_arena cfg (ram_arena s) m) →
  ∃ ret,
    appended s (platform_init_mmu_mappings cfg env s)
    = (EvStrcmp <$> dynamic_indices cfg 0 (mmu_initial_mappings s))
      ++ [EvPmmAddArena (ram_arena s) ret].
Proof.
  intros Hrd Hno.
  pose proof (mappings_loop_no_match cfg _ 0 s Hrd Hno) as Hloop.
  rewrite (resolver_returned cfg env s _ Hloop).
  eexists. apply appended_app. cbn. by rewrite <- app_assoc.
Qed.

Lemma foreign_machine_entries (m : mmu_initial_mapping) :
  m ∈ mmu_initial_mappings foreign_machine →
  name m ≠ Some "ram" ∧ (is_dynamic sample_config m → name m ≠ None).
Proof.
  intros Hm. cbn in Hm. rewrite !elem_of_cons, elem_of_nil in Hm.
  destruct Hm as [-> | [-> | [-> | [-> | []]]]]; cbn;
    (split; [done|]); done.
Defined.

Lemma unmatched_walk_compares_every_dynamic_entry_witness :
  ∃ ret,
    appended foreign_machine
      (platform_init_mmu_mappings sample_config obliging_env foreign_machine)
    = [EvStrcmp 0; EvStrcmp 2;
       EvPmmAddArena (ram_arena_init sample_config) ret].
Proof.
  apply (unmatched_walk_compares_every_dynamic_entry sample_config
           obliging_env foreign_machine).
  - intros m Hm. by apply foreign_machine_entries.
  - intros m Hm [_ Hn].
    destruct (foreign_machine_entries m Hm) as [Hne _]. exact (Hne Hn).
Defined.

(** X7. The loop has no null check: when the walk reaches, before any
    match, a dynamic entry whose name is null, that null name is what it
    hands to [strcmp].  Up to that call the names of the earlier dynamic
    entries were compared and nothing else happened: the arena is untouched
    and [pmm_add_arena] has not been called, also when a matching entry
    comes later in the table. *)
Theorem null_name_of_a_dynamic_entry_reaches_strcmp
    (cfg : build_config) (env : collaborators) (s : machine)
    (pre tail : list mmu_initial_mapping) (m : mmu_initial_mapping) :
  mmu_initial_mappings s = pre ++ m :: tail →
  names_readable cfg pre →
  (∀ m', m' ∈ pre → ¬ names_arena cfg (ram_arena s) m') →
  is_dynamic cfg m →
  name m = None →
  returns (platform_init_mmu_mappings cfg env s) = false
  ∧ appended s (platform_init_mmu_mappings cfg env s)
    = (EvStrcmp <$> dynamic_indices cfg 0 pre) ++ [EvStrcmp (length pre)]
  ∧ ram_arena (final (platform_init_mmu_mappings cfg env s)) = ram_arena s.
Proof.
  intros Htbl Hrd Hno Hd Hn.
  pose proof (mappings_loop_null_name cfg pre m tail 0 s Hrd Hno Hd Hn)
    as Hloop.
  rewrite <- Htbl in Hloop.
  rewrite (resolver_fault cfg env s _ Hloop).
  split; [done|]. split; [|done].
  by apply appended_app.
Qed.

Lemma null_name_of_a_dynamic_entry_reaches_strcmp_witness :
  returns (platform_init_mmu_mappings sample_config obliging_env
             nameless_machine) = false
  ∧ appended nameless_machine
      (platform_init_mmu_mappings sample_config obliging_env
         nameless_machine)
    = [EvStrcmp 1]
  ∧ ram_arena (final (platform_init_mmu_mappings sample_config obliging_env
                        nameless_machine))
    = ram_arena nameless_machine.
Proof.
  apply (null_name_of_a_dynamic_entry_reaches_strcmp sample_config
           obliging_env nameless_machine
           [ {| phys := 0x70006000; virt := 0xffffffffe0006000;
                size := 0x40; flags := 0x4; name := Some "uart" |} ]
           [ {| phys := 0x80000000; virt := 0xffffffffe0000000;
                size := 0x40000000; flags := 0x8; name := Some "ram" |};
             null_entry ]
           {| phys := 0x90000000; virt := 0xffffffffe0000000;
              size := 0x1000; flags := 0x8; name := None |}).
  - reflexivity.
  - intros m' Hin _. apply list_elem_of_singleton in Hin as ->. done.
  - intros m' Hin [Hd _]. apply list_elem_of_singleton in Hin as ->.
    by apply Hd.
  - by vm_compute.
  - reflexivity.
Defined.

(** * Further properties of the staged bring-up *)

(** [ROUNDDOWN] to a power of two clears the low bits: it subtracts the
    remainder. *)
Lemma ROUNDDOWN_pow2 (a k : Z) :
  0 <= k → ROUNDDOWN a (2 ^ k) = a - a mod 2 ^ k.
Proof.
  intros Hk. unfold ROUNDDOWN.
  replace (2 ^ k - 1) with (Z.ones k) by (rewrite Z.ones_equiv; lia).
  rewrite <- Z.ldiff_land, Z.ldiff_ones_r by done.
  rewrite Z.shiftl_mul_pow2, Z.shiftr_div_pow2 by done.
  pose proof (Z.div_mod a (2 ^ k)) as Hdm.
  assert (2 ^ k ≠ 0) by (apply Z.pow_nonzero; lia). lia.
Qed.

Section StagesMore.

Context (cfg : build_config) (env : collaborators).

Lemma same_globals_logged s evs : same_globals s (logged s evs).
Proof. done. Qed.

Lemma stage_A_eq lvl s :
  platform_during_vm_init cfg env lvl s
    = Returned tt
        (logged s
           (EvVmmAllocPhysical (uart_request cfg)
              (vmm_alloc_physical env (log s) (uart_request cfg))
            :: (if vmm_alloc_physical env (log s) (uart_request cfg) =? 0
                then []
                else [EvDprintf (CRITICAL cfg)
                        ("%s: failed to map UART port %d" +:+ LF)
                        [ArgStr "platform_during_vm_init";
                         ArgInt (vmm_alloc_physical env (log s)
                                   (uart_request cfg))]]))).
Proof.
  unfold platform_during_vm_init, call_vmm_alloc_physical.
  fold (uart_request cfg).
  set (err := vmm_alloc_physical env (log s) (uart_request cfg)).
  unfold bind, get, emit, pure, dprintf; cbn. fold err.
  destruct (err =? 0); cbn; [done|].
  rewrite emit_logged. unfold logged; cbn. by rewrite <- app_assoc.
Qed.

End StagesMore.

(** X8. With a page size that is the power of two its shift says (below
    [2^31]) and a UART base below 4 GiB, Stage A asks once for a mapping of
    one page, named "uart", uncached device, anywhere in the kernel address
    space (no address of its own, no placement flag), of the page that
    holds the UART base: the physical address requested is a multiple of
    the page size, at most the UART base and less than a page below it.  A
    failure is logged with its status and the hook returns in either case,
    leaving the globals alone. *)
Theorem stage_A_maps_the_page_of_the_uart
    (cfg : build_config) (env : collaborators) (lvl : Z) (s : machine) :
  0 <= PAGE_SIZE_SHIFT cfg < 31 →
  PAGE_SIZE cfg = 2 ^ PAGE_SIZE_SHIFT cfg →
  0 <= TEGRA_UARTA_BASE cfg < 2 ^ 32 →
  ∃ req ret s',
    platform_during_vm_init cfg env lvl s = Returned tt s'
    ∧ same_globals s s'
    ∧ appended s (platform_during_vm_init cfg env lvl s)
      = EvVmmAllocPhysical req ret
        :: (if ret =? 0 then []
            else [EvDprintf (CRITICAL cfg)
                    ("%s: failed to map UART port %d" +:+ LF)
                    [ArgStr "platform_during_vm_init"; ArgInt ret]])
    ∧ req_name req = "uart"
    ∧ req_size req = PAGE_SIZE cfg
    ∧ req_vaddr req = None
    ∧ req_vmm_flags req = 0
    ∧ req_arch_mmu_flags req = ARCH_MMU_FLAG_UNCACHED_DEVICE cfg
    ∧ req_paddr req mod PAGE_SIZE cfg = 0
    ∧ req_paddr req <= TEGRA_UARTA_BASE cfg < req_paddr req + PAGE_SIZE cfg.
Proof.
  intros Hshift Hsize Hbase.
  exists (uart_request cfg),
         (vmm_alloc_physical env (log s) (uart_request cfg)).
  eexists. rewrite stage_A_eq. split; [reflexivity|]. split; [done|].
  rewrite appended_logged. split; [done|].
  do 5 (split; [done|]).
  cbn [req_paddr uart_request]. rewrite Hsize, ROUNDDOWN_pow2 by lia.
  assert (0 < 2 ^ PAGE_SIZE_SHIFT cfg) by (apply Z.pow_pos_nonneg; lia).
  pose proof (Z.mod_pos_bound (TEGRA_UARTA_BASE cfg)
                (2 ^ PAGE_SIZE_SHIFT cfg) ltac:(done)) as Hb.
  assert (Hword : 2 ^ 32 <= 2 ^ word_bits cfg).
  { unfold word_bits. destruct (ARCH_ARM64 cfg); lia. }
  pose proof (Z.mod_le (TEGRA_UARTA_BASE cfg) (2 ^ PAGE_SIZE_SHIFT cfg)
                ltac:(lia) ltac:(done)) as Hle.
  unfold wrap.
  rewrite (Z.mod_small (TEGRA_UARTA_BASE cfg
                        - TEGRA_UARTA_BASE cfg mod 2 ^ PAGE_SIZE_SHIFT cfg)
             (2 ^ word_bits cfg)) by lia.
  split; [|lia].
  rewrite Zminus_mod, Z.mod_mod, Z.sub_diag by lia. apply Z.mod_0_l. lia.
Qed.

Example stage_A_on_an_offset_uart :
  appended scenario_machine
    (platform_during_vm_init offset_uart_config refusing_env 0x50001
       scenario_machine)
  = [EvVmmAllocPhysical
       {| req_name := "uart"; req_size := 4096; req_vaddr := None;
          req_align_log2 := 12; req_paddr := 0x70006000;
          req_vmm_flags := 0; req_arch_mmu_flags := 0x2 |} (-5);
     EvDprintf 0 ("%s: failed to map UART port %d" +:+ LF)
       [ArgStr "platform_during_vm_init"; ArgInt (-5)]].
Proof. reflexivity. Qed.

Lemma stage_A_maps_the_page_of_the_uart_witness :
  ∃ req ret s',
    platform_during_vm_init offset_uart_config refusing_env 0x50001
      scenario_machine = Returned tt s'
    ∧ same_globals scenario_machine s'
    ∧ appended scenario_machine
        (platform_during_vm_init offset_uart_config refusing_env 0x50001
           scenario_machine)
      = EvVmmAllocPhysical req ret
        :: (if ret =? 0 then []
            else [EvDprintf 0 ("%s: failed to map UART port %d" +:+ LF)
                    [ArgStr "platform_during_vm_init"; ArgInt ret]])
    ∧ req_name req = "uart"
    ∧ req_size req = 4096
    ∧ req_vaddr req = None
    ∧ req_vmm_flags req = 0
    ∧ req_arch_mmu_flags req = 0x2
    ∧ req_paddr req mod 4096 = 0
    ∧ req_paddr req <= 0x70006300 < req_paddr req + 4096.
Proof.
  apply (stage_A_maps_the_page_of_the_uart offset_uart_config refusing_env
           0x50001 scenario_machine).
  - by vm_compute.
  - reflexivity.
  - by vm_compute.
Defined.

(** X9. Stage B in full, for every environment.  It asks the monitor for
    GICC, then for GICD, with the same function id, and logs both answers;
    it then attempts the mapping at [GICC_BASE_VIRT] of the address the
    monitor gave for GICC and the mapping at [GICD_BASE_VIRT] of the address
    given for GICD, taking both addresses as they came; each attempt is
    followed by its diagnostic exactly when its status is nonzero; then come
    [arm_gic_init] and, last, [arm_generic_timer_init] with flags 0 and one
    of the lines 27, 29, 30.  The hook always returns and leaves the
    globals alone. *)
Theorem stage_B_in_full
    (cfg : build_config) (env : collaborators) (lvl : Z) (s : machine) :
  ∃ gicc gicd ret_c ret_d s',
    platform_after_vm_init cfg env lvl s = Returned tt s'
    ∧ same_globals s s'
    ∧ appended s (platform_after_vm_init cfg env lvl s)
      = [EvSmc (get_reg_base_fid cfg) (SMC_GET_GIC_BASE_GICC cfg) 0 0 gicc;
         EvSmc (get_reg_base_fid cfg) (SMC_GET_GIC_BASE_GICD cfg) 0 0 gicd;
         EvDprintf (INFO cfg) ("gicc 0x%lx, gicd 0x%lx" +:+ LF)
           [ArgULong gicc; ArgULong gicd];
         EvVmmAllocPhysical (gic_request cfg (GICC_BASE_VIRT cfg) gicc) ret_c]
        ++ (if ret_c =? 0 then [] else [map_regs_diagnostic cfg ret_c])
        ++ [EvVmmAllocPhysical (gic_request cfg (GICD_BASE_VIRT cfg) gicd)
              ret_d]
        ++ (if ret_d =? 0 then [] else [map_regs_diagnostic cfg ret_d])
        ++ [EvGicInit; EvTimerInit (ARM_GENERIC_TIMER_INT cfg) 0]
    ∧ (ARM_GENERIC_TIMER_INT cfg = 27 ∨ ARM_GENERIC_TIMER_INT cfg = 29
       ∨ ARM_GENERIC_TIMER_INT cfg = 30).
Proof.
  destruct (stage_B_log cfg env lvl s) as (gicc & gicd & r1 & r2 & Hrun).
  exists gicc, gicd, r1, r2. eexists.
  rewrite Hrun. split; [reflexivity|]. split; [done|].
  rewrite appended_logged. split.
  - unfold map_regs_events. cbn. reflexivity.
  - unfold ARM_GENERIC_TIMER_INT.
    destruct (TIMER_ARM_GENERIC_SELECTED cfg); cbn; auto.
Qed.

(** X10. Stage A followed by Stage B, the way the two hooks run at boot,
    always returns and changes none of the globals: after the resolver the
    arena is not written again, and the bring-up never calls
    [pmm_add_arena]. *)
Theorem bring_up_leaves_the_arena_alone
    (cfg : build_config) (env : collaborators) (lvl_a lvl_b : Z)
    (s : machine) :
  ∃ s',
    (platform_during_vm_init cfg env lvl_a;;
     platform_after_vm_init cfg env lvl_b) s = Returned tt s'
    ∧ same_globals s s'
    ∧ count_events is_pmm_add_arena
        (appended s
           ((platform_during_vm_init cfg env lvl_a;;
             platform_after_vm_init cfg env lvl_b) s)) = 0%nat
    ∧ count_events is_arena_write
        (appended s
           ((platform_during_vm_init cfg env lvl_a;;
             platform_after_vm_init cfg env lvl_b) s)) = 0%nat.
Proof.
  rewrite (bind_returned _ _ _ _ _ (stage_A_eq cfg env _ s)).
  match goal with
  |- context [platform_after_vm_init cfg env ?l ?s1] =>
    destruct (stage_B_log cfg env l s1) as (gicc & gicd & r1 & r2 & Hrun)
  end.
  rewrite Hrun.
  eexists. split; [reflexivity|]. split; [done|].
  rewrite !logged_logged, appended_logged.
  unfold map_regs_events, count_events.
  by destruct (vmm_alloc_physical env (log s) (uart_request cfg) =? 0),
       (r1 =? 0), (r2 =? 0).
Qed.
